(** * ChainX Telegram bot: the query-to-filtered-result pipeline

    A shallow embedding of [main.py]: the schema registry ([DATA_SOURCES],
    [FIELD_TYPES]), the predicate evaluator ([apply_filter]), the two
    inference-backed steps ([detect_entity], [extract_filters]), the response
    formatter ([format_filters], [format_response]) and the truncation step of
    [handle_message].

    Python values are modelled as they reach the code: a [str] is a list of
    Unicode code points, a [dict] decoded from JSON is an insertion-ordered
    association list, a [float] is an IEEE-754 binary64 value ([spec_float]),
    an [int] is unbounded ([Z]).  A Python call either returns or raises:
    [result]. *)

From Stdlib Require Import String Ascii.
From Stdlib Require Import List ZArith NArith Bool Lia DecimalString.
From Stdlib Require DecimalPos.
From Stdlib Require Import Permutation.
From Stdlib Require Import SpecFloat.
Import ListNotations.

Set Implicit Arguments.

(** ** Exceptions and results *)

(** The exception classes that the modelled code can meet.  Every one of them
    is a subclass of [Exception]; [JSONDecodeError] is also a [ValueError]. *)
Inductive exn : Type :=
| AttributeError
| TypeError
| ValueError
| OverflowError
| KeyError
| JSONDecodeError
| GoogleAPIError
| OtherException.

Inductive result (A : Type) : Type :=
| Ok (a : A)
| Raise (e : exn).

Arguments Ok {A} a.
Arguments Raise {A} e.

(** [isinstance(e, (ValueError, TypeError))], the clause of [apply_filter]. *)
Definition is_value_or_type_error (e : exn) : bool :=
  match e with
  | ValueError | TypeError | JSONDecodeError => true
  | _ => false
  end.

(** ** Strings *)

Definition pychar := N.
Definition pystr := list pychar.

(** A string literal of the source, for its ASCII part. *)
Definition lit (s : string) : pystr := map N_of_ascii (list_ascii_of_string s).

Definition NL : pystr := [10%N].

Fixpoint str_eqb (a b : pystr) : bool :=
  match a, b with
  | [], [] => true
  | x :: a', y :: b' => N.eqb x y && str_eqb a' b'
  | _, _ => false
  end.

(** [s.startswith(p)] *)
Fixpoint startswith (p s : pystr) : bool :=
  match p, s with
  | [], _ => true
  | x :: p', y :: s' => N.eqb x y && startswith p' s'
  | _ :: _, [] => false
  end.

(** [s.endswith(p)] *)
Definition endswith (p s : pystr) : bool := startswith (rev p) (rev s).

(** [s[a:-1]] for a non-negative [a]. *)
Definition slice_to_last (a : nat) (s : pystr) : pystr :=
  firstn (length s - 1 - a) (skipn a s).

(** [s[:-1]] *)
Definition drop_last (s : pystr) : pystr := slice_to_last 0 s.

(** [sub in s] *)
Fixpoint contains (sub s : pystr) : bool :=
  startswith sub s ||
  match s with
  | [] => false
  | _ :: s' => contains sub s'
  end.

(** [s.split(' ', 1)]: at most one cut, at the first space. *)
Fixpoint cut_at_space (s : pystr) : option (pystr * pystr) :=
  match s with
  | [] => None
  | c :: s' =>
      if N.eqb c 32 then Some ([], s')
      else match cut_at_space s' with
           | Some (a, b) => Some (c :: a, b)
           | None => None
           end
  end.

Definition split_space_1 (s : pystr) : list pystr :=
  match cut_at_space s with
  | Some (a, b) => [a; b]
  | None => [s]
  end.

(** [sep.join(items)] *)
Fixpoint join (sep : pystr) (items : list pystr) : pystr :=
  match items with
  | [] => []
  | [x] => x
  | x :: rest => x ++ sep ++ join sep rest
  end.

(** [str.isspace] of one code point. *)
Definition is_space (c : pychar) : bool :=
  ((9 <=? c) && (c <=? 13) || (28 <=? c) && (c <=? 32) ||
   N.eqb c 133 || N.eqb c 160 || N.eqb c 5760 ||
   (8192 <=? c) && (c <=? 8202) || N.eqb c 8232 || N.eqb c 8233 ||
   N.eqb c 8239 || N.eqb c 8287 || N.eqb c 12288)%N.

Fixpoint lstrip (s : pystr) : pystr :=
  match s with
  | c :: s' => if is_space c then lstrip s' else s
  | [] => []
  end.

(** [s.strip()] *)
Definition strip (s : pystr) : pystr := rev (lstrip (rev (lstrip s))).

Definition is_ascii (s : pystr) : bool := forallb (fun c => c <? 128)%N s.

Definition ascii_lower_char (c : pychar) : pychar :=
  if ((65 <=? c) && (c <=? 90))%N then (c + 32)%N else c.

Definition ascii_upper_char (c : pychar) : pychar :=
  if ((97 <=? c) && (c <=? 122))%N then (c - 32)%N else c.

(** Decimal text of an [int]: [str(n)]. *)
Definition str_of_Z (z : Z) : pystr :=
  lit (DecimalString.NilZero.string_of_int (Z.to_int z)).

Definition str_of_nat (n : nat) : pystr := str_of_Z (Z.of_nat n).

(** ** Floating point: [float(...)] *)

Local Open Scope Z_scope.

Definition float64_normalize (m e : Z) (szero : bool) : spec_float :=
  binary_normalize 53 1024 m e szero.

(** The binary64 value nearest to [p / q] (ties to even), for [0 < p] and
    [0 < q].  The quotient is taken with at least 56 significant bits and a
    sticky bit for the remainder, so that the final rounding sees on which
    side of every midpoint the exact value lies. *)
Definition round_ratio (neg : bool) (p q : Z) : spec_float :=
  let s := Z.max 0 (Z.log2 q + 56 - Z.log2 p) in
  let n := Z.shiftl p s / q in
  let r := Z.shiftl p s mod q in
  let m := 2 * n + (if r =? 0 then 0 else 1) in
  float64_normalize (if neg then - m else m) (- (s + 1)) neg.

(** [digits * 10 ^ e10], correctly rounded; overflow gives an infinity. *)
Definition decimal_to_float (neg : bool) (digits e10 : Z) : spec_float :=
  if digits =? 0 then S754_zero neg
  else if 0 <=? e10 then round_ratio neg (digits * 10 ^ e10) 1
       else round_ratio neg digits (10 ^ (- e10)).

Definition is_digit (c : pychar) : bool := ((48 <=? c) && (c <=? 57))%N.

Fixpoint span_digits (s : pystr) : pystr * pystr :=
  match s with
  | c :: s' =>
      if is_digit c
      then let (d, r) := span_digits s' in (c :: d, r)
      else ([], s)
  | [] => ([], [])
  end.

Definition digits_value (ds : pystr) : Z :=
  fold_left (fun acc c => acc * 10 + Z.of_N (c - 48)) ds 0.

Definition parse_sign (s : pystr) : bool * pystr :=
  match s with
  | 45%N :: s' => (true, s')
  | 43%N :: s' => (false, s')
  | _ => (false, s)
  end.

(** The decimal grammar of the string-to-double conversion: an optional sign,
    digits with an optional point (one digit at least), an optional exponent,
    and nothing after it. *)
Definition parse_decimal (s : pystr) : option spec_float :=
  let (neg, s1) := parse_sign s in
  let (ip, s2) := span_digits s1 in
  let (fp, s3) := match s2 with
                  | 46%N :: t => span_digits t
                  | _ => ([], s2)
                  end in
  match ip ++ fp with
  | [] => None
  | ds =>
      let (e10, rest) :=
        match s3 with
        | c :: t =>
            if (N.eqb c 101 || N.eqb c 69)%N
            then let (eneg, t1) := parse_sign t in
                 let (ed, t2) := span_digits t1 in
                 match ed with
                 | [] => (0, s3)
                 | _ => ((if eneg then - digits_value ed else digits_value ed), t2)
                 end
            else (0, s3)
        | [] => (0, [])
        end in
      match rest with
      | [] => Some (decimal_to_float neg (digits_value ds)
                      (e10 - Z.of_nat (List.length fp)))
      | _ => None
      end
  end.

(** [inf], [infinity] and [nan], signed, in any letter case. *)
Definition parse_inf_or_nan (s : pystr) : option spec_float :=
  let (neg, s1) := parse_sign s in
  let l := map ascii_lower_char s1 in
  if str_eqb l (lit "inf") || str_eqb l (lit "infinity")
  then Some (S754_infinity neg)
  else if str_eqb l (lit "nan") then Some S754_nan
  else None.

(** Underscores may only stand between two digits; they are then dropped. *)
Fixpoint drop_underscores (prev : pychar) (s : pystr) : option pystr :=
  match s with
  | [] => if N.eqb prev 95 then None else Some []
  | c :: s' =>
      if N.eqb c 95
      then if is_digit prev then drop_underscores c s' else None
      else if (N.eqb prev 95 && negb (is_digit c))%bool then None
           else match drop_underscores c s' with
                | Some r => Some (c :: r)
                | None => None
                end
  end.

Definition is_c_space (c : pychar) : bool :=
  ((9 <=? c) && (c <=? 13) || N.eqb c 32)%N.

Fixpoint lstrip_c (s : pystr) : pystr :=
  match s with
  | c :: s' => if is_c_space c then lstrip_c s' else s
  | [] => []
  end.

Definition float_from_string_inner (s : pystr) : option spec_float :=
  let body := rev (lstrip_c (rev (lstrip_c s))) in
  match parse_decimal body with
  | Some f => Some f
  | None => parse_inf_or_nan body
  end.

(** ** Values and dictionaries *)

Set Warnings "-register-all".

(** What [json.loads] and [response.json()] can produce.  A [dict] keeps its
    insertion order; its keys are strings. *)
Inductive value : Type :=
| VNone
| VBool (b : bool)
| VInt (z : Z)
| VFloat (f : spec_float)
| VStr (s : pystr)
| VList (l : list value)
| VDict (d : list (pystr * value)).

Definition pydict := list (pystr * value).

(** Lookup in an insertion-ordered table with string keys. *)
Fixpoint assoc {A : Type} (k : pystr) (l : list (pystr * A)) : option A :=
  match l with
  | [] => None
  | (k', a) :: l' => if str_eqb k k' then Some a else assoc k l'
  end.

(** [k in d] is [dict_get k d <> None]; [d[k]] and [d.get(k)] read it. *)
Definition dict_get (k : pystr) (d : pydict) : option value := assoc k d.

(** [d.get(k, default)] *)
Definition dict_get_default (k : pystr) (d : pydict) (default : value) : value :=
  match dict_get k d with
  | Some v => v
  | None => default
  end.

Definition is_dict (v : value) : bool :=
  match v with
  | VDict _ => true
  | _ => false
  end.

(** Truth value of an object, as [if x] tests it. *)
Definition truthy (v : value) : bool :=
  match v with
  | VNone => false
  | VBool b => b
  | VInt z => negb (z =? 0)
  | VFloat f => negb (SFeqb f (S754_zero false))
  | VStr s => negb (str_eqb s [])
  | VList l => match l with [] => false | _ => true end
  | VDict d => match d with [] => false | _ => true end
  end.

(** ** Built-ins outside this repository

    The parts of the Python runtime and of the [json] module that the code
    calls and that are not spelled out here: case mapping of non-ASCII text,
    the decimal value of non-ASCII digits, the text of a float and of a
    container, the JSON decoder and encoder.  ASCII behaviour is defined in
    this file and does not go through them. *)
Class PyBuiltins : Type := {
  unicode_lower : pystr -> pystr;
  unicode_capitalize : pystr -> pystr;
  unicode_decimal : pychar -> option N;
  float_repr : spec_float -> pystr;
  container_repr : value -> pystr;
  json_loads : pystr -> result value;
  json_dumps_indent2 : pydict -> result pystr
}.

Section WithBuiltins.

Context {builtins : PyBuiltins}.

(** [s.lower()] *)
Definition lower (s : pystr) : pystr :=
  if is_ascii s then map ascii_lower_char s else unicode_lower s.

(** [s.capitalize()] *)
Definition capitalize (s : pystr) : pystr :=
  if is_ascii s
  then match s with
       | [] => []
       | c :: s' => ascii_upper_char c :: map ascii_lower_char s'
       end
  else unicode_capitalize s.

(** [str(v)], which is also how an f-string renders [v]. *)
Definition py_str (v : value) : pystr :=
  match v with
  | VNone => lit "None"
  | VBool true => lit "True"
  | VBool false => lit "False"
  | VInt z => str_of_Z z
  | VFloat f => float_repr f
  | VStr s => s
  | VList _ | VDict _ => container_repr v
  end.

(** Non-ASCII text is first mapped to ASCII: spaces to a space, decimal
    digits to their ASCII digit, anything else to a question mark. *)
Definition to_ascii_decimal (s : pystr) : pystr :=
  if is_ascii s then s
  else map (fun c =>
              if (c <? 127)%N then c
              else if is_space c then 32%N
              else match unicode_decimal c with
                   | Some d => (48 + d)%N
                   | None => 63%N
                   end) s.

(** [float(s)] for a string: [None] stands for [ValueError]. *)
Definition float_from_string (s : pystr) : option spec_float :=
  let a := to_ascii_decimal s in
  if existsb (N.eqb 95) a
  then match drop_underscores 0%N a with
       | Some b => float_from_string_inner b
       | None => None
       end
  else float_from_string_inner a.

(** [float(n)] for an [int]: rounded to nearest, [OverflowError] beyond the
    largest finite double. *)
Definition float_from_int (z : Z) : result spec_float :=
  match float64_normalize z 0 false with
  | S754_infinity _ => Raise OverflowError
  | f => Ok f
  end.

(** [float(v)] *)
Definition py_float (v : value) : result spec_float :=
  match v with
  | VFloat f => Ok f
  | VInt z => float_from_int z
  | VBool b => Ok (float64_normalize (if b then 1 else 0) 0 false)
  | VStr s => match float_from_string s with
              | Some f => Ok f
              | None => Raise ValueError
              end
  | VNone | VList _ | VDict _ => Raise TypeError
  end.

(** ** Schema registry *)

Definition DATA_SOURCES : list (pystr * pystr) :=
  [ (lit "sellers", lit "https://chainx-beta.vercel.app/api/seller");
    (lit "warehouses", lit "https://chainx-beta.vercel.app/api/warehouse");
    (lit "products", lit "https://chainx-beta.vercel.app/api/product");
    (lit "logistics", lit "https://chainx-beta.vercel.app/api/logistic");
    (lit "inspectors", lit "https://chainx-beta.vercel.app/api/inspector");
    (lit "factories", lit "https://chainx-beta.vercel.app/api/factories") ].

Definition str_field (name : string) : pystr * pystr := (lit name, lit "string").
Definition num_field (name : string) : pystr * pystr := (lit name, lit "number").

Definition FIELD_TYPES : list (pystr * list (pystr * pystr)) :=
  [ (lit "products",
     [ str_field "product_name"; str_field "product_description";
       str_field "batch_number"; str_field "factory_id";
       num_field "product_price"; num_field "product_stock";
       num_field "mrp" ]);
    (lit "warehouses",
     [ str_field "name"; str_field "description"; num_field "latitude";
       num_field "longitude"; str_field "contact_details";
       num_field "warehouse_size"; num_field "balance";
       str_field "factory_id"; str_field "product_id";
       num_field "product_count"; num_field "logistic_count" ]);
    (lit "sellers",
     [ str_field "name"; str_field "seller_id"; str_field "description";
       num_field "latitude"; num_field "longitude";
       str_field "contact_info"; num_field "balance";
       num_field "products_count"; num_field "order_count" ]);
    (lit "logistics",
     [ str_field "name"; str_field "logistic_id";
       str_field "transportation_mode"; str_field "status";
       str_field "contact_info"; num_field "shipment_cost";
       str_field "product_id"; num_field "product_stock";
       str_field "warehouse_id"; num_field "latitude";
       num_field "longitude"; num_field "balance" ]);
    (lit "inspectors",
     [ str_field "name"; str_field "inspector_id"; num_field "latitude";
       num_field "longitude"; num_field "balance";
       num_field "fee_charge_per_product" ]);
    (lit "factories",
     [ str_field "name"; str_field "factory_id"; str_field "description";
       num_field "latitude"; num_field "longitude";
       str_field "contact_info"; num_field "product_count";
       num_field "balance" ]) ].

(** [FIELD_TYPES.get(entity, {}).get(field)] *)
Definition field_type_of (entity field : pystr) : option pystr :=
  match assoc entity FIELD_TYPES with
  | Some fields => assoc field fields
  | None => None
  end.

Definition opt_str_eqb (o : option pystr) (s : pystr) : bool :=
  match o with
  | Some t => str_eqb t s
  | None => false
  end.

(** ** Predicate evaluator: [apply_filter] *)

(** The string branch for one condition.  [Ok true]: the loop goes on;
    [Ok false]: [return False].  A condition that is not a [str] has no
    [startswith]. *)
Definition string_condition (condition item_value : value) : result bool :=
  match condition with
  | VStr c =>
      if startswith (lit "contains '") c && endswith (lit "'") c then
        let text := lower (slice_to_last (List.length (lit "contains '")) c) in
        if negb (contains text (lower (py_str item_value)))
        then Ok false else Ok true
      else if startswith (lit "exact '") c && endswith (lit "'") c then
        let text := lower (slice_to_last (List.length (lit "exact '")) c) in
        if negb (str_eqb (lower (py_str item_value)) text)
        then Ok false else Ok true
      else Ok false
  | _ => Raise AttributeError
  end.

(** The body of the [try] of the number branch. *)
Definition number_condition_body (condition item_field : value) : result bool :=
  match condition with
  | VStr c =>
      match split_space_1 c with
      | [op; value_str] =>
          match py_float (VStr value_str) with
          | Raise e => Raise e
          | Ok value =>
              match py_float item_field with
              | Raise e => Raise e
              | Ok item_value =>
                  if str_eqb op (lit "<") then
                    if SFleb value item_value then Ok false else Ok true
                  else if str_eqb op (lit ">") then
                    if SFleb item_value value then Ok false else Ok true
                  else if str_eqb op (lit "=") then
                    if negb (SFeqb item_value value) then Ok false else Ok true
                  else if str_eqb op (lit "<=") then
                    if SFltb value item_value then Ok false else Ok true
                  else if str_eqb op (lit ">=") then
                    if SFltb item_value value then Ok false else Ok true
                  else Ok false
              end
          end
      | _ => Ok false
      end
  | _ => Raise AttributeError
  end.

(** [try: ... except (ValueError, TypeError): return False] *)
Definition number_condition (condition item_field : value) : result bool :=
  match number_condition_body condition item_field with
  | Raise e => if is_value_or_type_error e then Ok false else Raise e
  | r => r
  end.

Fixpoint apply_filter (item filters : pydict) (entity : pystr) : result bool :=
  match filters with
  | [] => Ok true
  | (field, condition) :: rest =>
      match dict_get field item with
      | None => apply_filter item rest entity
      | Some item_field =>
          let field_type := field_type_of entity field in
          if opt_str_eqb field_type (lit "string") then
            match string_condition condition item_field with
            | Ok true => apply_filter item rest entity
            | r => r
            end
          else if opt_str_eqb field_type (lit "number") then
            match number_condition condition item_field with
            | Ok true => apply_filter item rest entity
            | r => r
            end
          else apply_filter item rest entity
      end
  end.

(** ** The inference capability

    [await model.generate_content_async(prompt)] either raises or returns a
    response object; reading [response.text] either gives the text or raises
    ([AttributeError] when the attribute is missing). *)
Record response : Type := { text : result pystr }.

Inductive generation : Type :=
| Generated (r : response)
| GenerationRaises (e : exn).

Variable generate_content : pystr -> generation.

Definition DQ : pystr := [34%N].

(** [hasattr(response, 'text')]: only [AttributeError] means "no". *)
Definition hasattr_text (r : response) : result bool :=
  match text r with
  | Ok _ => Ok true
  | Raise AttributeError => Ok false
  | Raise e => Raise e
  end.

(** The text of a list of plain names, as an f-string shows it. *)
Definition repr_names (names : list pystr) : pystr :=
  lit "[" ++ join (lit ", ") (map (fun n => lit "'" ++ n ++ lit "'") names)
  ++ lit "]".

Definition detect_entity_prompt (query : pystr) : pystr :=
  NL ++ lit "    Analyze the following user query and identify which single entity type it is primarily about."
  ++ NL ++ lit "    Query: " ++ DQ ++ query ++ DQ
  ++ NL ++ lit "    Available entity types: " ++ repr_names (map fst DATA_SOURCES)
  ++ NL
  ++ NL ++ lit "    Respond ONLY with the single most relevant entity name from the list in lowercase."
  ++ NL ++ lit "    If no single entity seems clearly relevant, respond with "
  ++ DQ ++ lit "none" ++ DQ ++ lit "."
  ++ NL ++ lit "    ".

Definition in_data_sources (entity : pystr) : bool :=
  match assoc entity DATA_SOURCES with
  | Some _ => true
  | None => false
  end.

(** Both handlers of [detect_entity] log and re-raise. *)
Definition detect_entity (query : pystr) : result (option pystr) :=
  match generate_content (detect_entity_prompt query) with
  | GenerationRaises e => Raise e
  | Generated r =>
      let entity :=
        match hasattr_text r with
        | Raise e => Raise e
        | Ok false => Ok (lit "none")
        | Ok true =>
            match text r with
            | Ok t => Ok (lower (strip t))
            | Raise e => Raise e
            end
        end in
      match entity with
      | Raise e => Raise e
      | Ok entity =>
          if str_eqb entity (lit "none") || negb (in_data_sources entity)
          then Ok None
          else Ok (Some entity)
      end
  end.

Definition extract_filters_prompt (entity fields query : pystr) : pystr :=
  NL ++ lit "    Analyze the following user query and extract the search filters for the specified entity."
  ++ NL ++ lit "    Entity: " ++ entity
  ++ NL ++ lit "    Available fields: " ++ fields
  ++ NL ++ lit "    Query: " ++ DQ ++ query ++ DQ
  ++ NL
  ++ NL ++ lit "    For string fields, use " ++ DQ ++ lit "contains 'text'" ++ DQ
  ++ lit " for partial matches or " ++ DQ ++ lit "exact 'text'" ++ DQ
  ++ lit " for exact matches."
  ++ NL ++ lit "    For numerical fields, use operators like "
  ++ DQ ++ lit "<50" ++ DQ ++ lit ", " ++ DQ ++ lit ">100" ++ DQ ++ lit ", "
  ++ DQ ++ lit "=20" ++ DQ ++ lit ", etc."
  ++ NL ++ lit "    If the query mentions a category (e.g., "
  ++ DQ ++ lit "electronics category" ++ DQ
  ++ lit "), interpret it as a filter on relevant fields like name or description if no explicit category field exists."
  ++ NL ++ lit "    Respond with a JSON object where each key is a field name, and the value is the condition string."
  ++ NL ++ lit "    If no specific filters are mentioned, respond with an empty object."
  ++ NL ++ lit "    Example response: {" ++ DQ ++ lit "product_name" ++ DQ
  ++ lit ": " ++ DQ ++ lit "contains 'apple'" ++ DQ ++ lit ", "
  ++ DQ ++ lit "product_price" ++ DQ ++ lit ": " ++ DQ ++ lit "<50" ++ DQ
  ++ lit "}"
  ++ NL ++ lit "    ".

(** The body of the outer [try] of [extract_filters]. *)
Definition extract_filters_body (prompt : pystr) : result pydict :=
  match generate_content prompt with
  | GenerationRaises e => Raise e
  | Generated r =>
      match text r with
      | Raise e => Raise e
      | Ok t =>
          let response_text := strip t in
          match response_text with
          | [] => Ok []
          | _ =>
              match json_loads response_text with
              | Ok (VDict filters) => Ok filters
              | Ok _ => Ok []
              | Raise JSONDecodeError => Ok []
              | Raise e => Raise e
              end
          end
      end
  end.

(** [FIELD_TYPES[entity]] is read before the [try]; inside it, both handlers
    return an empty dict. *)
Definition extract_filters (entity query : pystr) : result pydict :=
  match assoc entity FIELD_TYPES with
  | None => Raise KeyError
  | Some entity_fields =>
      let fields := join (lit ", ") (map fst entity_fields) in
      match extract_filters_body (extract_filters_prompt entity fields query) with
      | Ok filters => Ok filters
      | Raise _ => Ok []
      end
  end.


(** ** Response formatter *)

(** The non-ASCII runs of the literals, code point by code point as the
    source file stores them. *)
Definition icon_factory : pystr := [0xf8ff%N; 0xfc%N; 0xe8%N; 0x2260%N].
Definition icon_pin : pystr := [0xf8ff%N; 0xfc%N; 0xec%N; 0xe7%N].
Definition icon_phone : pystr := [0xf8ff%N; 0xfc%N; 0xec%N; 0xfb%N].
Definition icon_box : pystr := [0xf8ff%N; 0xfc%N; 0xec%N; 0xb6%N].
Definition icon_balance : pystr := [0xf8ff%N; 0xfc%N; 0xed%N; 0x221e%N].
Definition icon_price : pystr := [0xf8ff%N; 0xfc%N; 0xed%N; 0x2264%N].
Definition icon_tag : pystr :=
  [0xf8ff%N; 0xfc%N; 0xe8%N; 0x2211%N; 0xd4%N; 0x220f%N; 0xe8%N].
Definition icon_check : pystr := [0x201a%N; 0xfa%N; 0xd6%N].
Definition icon_inspector : pystr :=
  [0xf8ff%N; 0xfc%N; 0xef%N; 0xb5%N; 0xd4%N; 0x220f%N; 0xe8%N].
Definition icon_shop : pystr := [0xf8ff%N; 0xfc%N; 0xe8%N; 0x2122%N].
Definition icon_warehouse : pystr := [0xf8ff%N; 0xfc%N; 0xe8%N; 0xa2%N].
Definition icon_size : pystr := [0xf8ff%N; 0xfc%N; 0xec%N; 0xea%N].
Definition icon_truck : pystr := [0xf8ff%N; 0xfc%N; 0xf6%N; 0xf6%N].
Definition icon_warning : pystr :=
  [0x201a%N; 0xf6%N; 0x2020%N; 0xd4%N; 0x220f%N; 0xe8%N].
Definition icon_search : pystr := [0xf8ff%N; 0xfc%N; 0xee%N; 0xe7%N].
Definition icon_info : pystr :=
  [0x201a%N; 0xd1%N; 0x3c0%N; 0xd4%N; 0x220f%N; 0xe8%N].
Definition icon_scissors : pystr :=
  [0x201a%N; 0xfa%N; 0xc7%N; 0xd4%N; 0x220f%N; 0xe8%N].

Definition format_filters (filters : pydict) : pystr :=
  match filters with
  | [] => []
  | _ =>
      let conditions :=
        fold_left (fun conditions fc =>
                     conditions ++ [fst fc ++ lit " " ++ py_str (snd fc)])
                  filters [] in
      lit " where " ++ join (lit " and ") conditions
  end.

(** [{d.get(key, 'N/A')}] *)
Definition fld (d : pydict) (key : string) : pystr :=
  py_str (dict_get_default (lit key) d (VStr (lit "N/A"))).

(** [{d.get(key, d.get(alt, 'N/A'))}] *)
Definition fld_alt (d : pydict) (key alt : string) : pystr :=
  py_str (dict_get_default (lit key) d
            (dict_get_default (lit alt) d (VStr (lit "N/A")))).

(** [{'Yes' if d.get(key) else 'No'}] *)
Definition yes_no (d : pydict) (key : string) : pystr :=
  if truthy (dict_get_default (lit key) d VNone) then lit "Yes" else lit "No".

Definition format_factories (d : pydict) : pystr :=
  icon_factory ++ lit " *" ++ fld d "name" ++ lit "* (ID: "
     ++ fld d "factory_id" ++ lit ")" ++ NL
  ++ lit "   Desc: _" ++ fld d "description" ++ lit "_" ++ NL
  ++ lit "   " ++ icon_pin ++ lit " Location: Lat " ++ fld d "latitude"
     ++ lit ", Lon " ++ fld d "longitude" ++ NL
  ++ lit "   " ++ icon_phone ++ lit " Contact: " ++ fld d "contact_info" ++ NL
  ++ lit "   " ++ icon_box ++ lit " Products Count: " ++ fld d "product_count"
     ++ NL
  ++ lit "   " ++ icon_balance ++ lit " Balance: " ++ fld d "balance" ++ NL.

Definition format_products (d : pydict) : pystr :=
  icon_box ++ lit " *" ++ fld_alt d "product_name" "name" ++ lit "* (ID: "
     ++ fld d "product_id" ++ lit ")" ++ NL
  ++ lit "   Desc: _" ++ fld d "product_description" ++ lit "_" ++ NL
  ++ lit "   Batch: `" ++ fld d "batch_number" ++ lit "`" ++ NL
  ++ lit "   " ++ icon_factory ++ lit " Factory ID: " ++ fld d "factory_id"
     ++ NL
  ++ lit "   " ++ icon_price ++ lit " Price: "
     ++ fld_alt d "product_price" "price" ++ NL
  ++ lit "   Stock: " ++ fld_alt d "product_stock" "stock" ++ NL
  ++ lit "   " ++ icon_tag ++ lit " MRP: " ++ fld d "mrp" ++ NL
  ++ lit "   " ++ icon_check ++ lit " Quality Checked: "
     ++ yes_no d "quality_checked" ++ NL
  ++ lit "   " ++ icon_inspector ++ lit " Inspection ID: "
     ++ fld d "inspection_id" ++ lit " (Fee Paid: "
     ++ yes_no d "inspection_fee_paid" ++ lit ")" ++ NL.

Definition format_sellers (d : pydict) : pystr :=
  icon_shop ++ lit " *" ++ fld d "name" ++ lit "* (ID: "
     ++ fld_alt d "seller_id" "id" ++ lit ")" ++ NL
  ++ lit "   Desc: _" ++ fld d "description" ++ lit "_" ++ NL
  ++ lit "   " ++ icon_pin ++ lit " Location: Lat " ++ fld d "latitude"
     ++ lit ", Lon " ++ fld d "longitude" ++ NL
  ++ lit "   " ++ icon_phone ++ lit " Contact: " ++ fld d "contact_info" ++ NL
  ++ lit "   " ++ icon_balance ++ lit " Balance: " ++ fld d "balance" ++ NL
  ++ lit "   " ++ icon_box ++ lit " Products Count: "
     ++ fld d "products_count" ++ NL
  ++ lit "   Orders: " ++ fld d "order_count" ++ NL.

Definition format_warehouses (d : pydict) : pystr :=
  icon_warehouse ++ lit " *" ++ fld d "name" ++ lit "* (ID: "
     ++ fld d "warehouse_id" ++ lit ")" ++ NL
  ++ lit "   Desc: _" ++ fld d "description" ++ lit "_" ++ NL
  ++ lit "   " ++ icon_pin ++ lit " Location: Lat " ++ fld d "latitude"
     ++ lit ", Lon " ++ fld d "longitude" ++ NL
  ++ lit "   " ++ icon_phone ++ lit " Contact: " ++ fld d "contact_details"
     ++ NL
  ++ lit "   " ++ icon_size ++ lit " Size: "
     ++ fld_alt d "warehouse_size" "capacity" ++ lit " units" ++ NL
  ++ lit "   " ++ icon_balance ++ lit " Balance: " ++ fld d "balance" ++ NL
  ++ lit "   " ++ icon_factory ++ lit " Factory ID: " ++ fld d "factory_id"
     ++ NL
  ++ lit "   " ++ icon_box ++ lit " Product ID: " ++ fld d "product_id"
     ++ lit " (Count: " ++ fld d "product_count" ++ lit ")" ++ NL
  ++ lit "   " ++ icon_truck ++ lit " Logistics Count: "
     ++ fld d "logistic_count" ++ NL.

Definition format_logistics (d : pydict) : pystr :=
  icon_truck ++ lit " *"
     ++ py_str (dict_get_default (lit "name") d (VStr (lit "Shipment "
     ++ fld d "logistic_id"))) ++ lit "* (ID: " ++ fld d "logistic_id"
     ++ lit ")" ++ NL
  ++ lit "   Mode: " ++ fld_alt d "transportation_mode" "type" ++ NL
  ++ lit "   Status: " ++ fld d "status" ++ NL
  ++ lit "   " ++ icon_phone ++ lit " Contact: " ++ fld d "contact_info" ++ NL
  ++ lit "   " ++ icon_price ++ lit " Cost: " ++ fld d "shipment_cost" ++ NL
  ++ lit "   " ++ icon_box ++ lit " Product ID: " ++ fld d "product_id"
     ++ lit " (Stock: " ++ fld_alt d "product_stock" "capacity" ++ lit ")"
     ++ NL
  ++ lit "   " ++ icon_warehouse ++ lit " Warehouse ID: "
     ++ fld d "warehouse_id" ++ NL
  ++ lit "   " ++ icon_pin ++ lit " Current Loc: Lat " ++ fld d "latitude"
     ++ lit ", Lon " ++ fld d "longitude" ++ NL
  ++ lit "   Delivered: " ++ yes_no d "delivered" ++ lit " (Confirmed: "
     ++ yes_no d "delivery_confirmed" ++ lit ")" ++ NL
  ++ lit "   " ++ icon_balance ++ lit " Balance: " ++ fld d "balance" ++ NL.

Definition format_inspectors (d : pydict) : pystr :=
  icon_inspector ++ lit " *" ++ fld d "name" ++ lit "* (ID: "
     ++ fld d "inspector_id" ++ lit ")" ++ NL
  ++ lit "   " ++ icon_pin ++ lit " Location: Lat " ++ fld d "latitude"
     ++ lit ", Lon " ++ fld d "longitude" ++ NL
  ++ lit "   " ++ icon_balance ++ lit " Balance: " ++ fld d "balance" ++ NL
  ++ lit "   " ++ icon_price ++ lit " Fee/Product: "
     ++ fld d "fee_charge_per_product" ++ NL.

(** [f"```json\n{json.dumps(d, indent=2)}\n```"] *)
Definition default_formatter (d : pydict) : result pystr :=
  match json_dumps_indent2 d with
  | Ok s => Ok (lit "```json" ++ NL ++ s ++ NL ++ lit "```")
  | Raise e => Raise e
  end.

Definition formatters : list (pystr * (pydict -> result pystr)) :=
  [ (lit "factories", fun d => Ok (format_factories d));
    (lit "products", fun d => Ok (format_products d));
    (lit "sellers", fun d => Ok (format_sellers d));
    (lit "warehouses", fun d => Ok (format_warehouses d));
    (lit "logistics", fun d => Ok (format_logistics d));
    (lit "inspectors", fun d => Ok (format_inspectors d)) ].

(** [formatters.get(entity, default_formatter)] *)
Definition select_formatter (entity : pystr) : pydict -> result pystr :=
  match assoc entity formatters with
  | Some f => f
  | None => default_formatter
  end.

(** The identifier shown by the error placeholder. *)
Definition placeholder_id (entity : pystr) (item : value) : pystr :=
  match item with
  | VDict d =>
      py_str
        (dict_get_default (drop_last entity ++ lit "_id") d
           (dict_get_default (lit "id") d
              (dict_get_default (lit "product_id") d
                 (dict_get_default (lit "factory_id") d
                    (VStr (lit "Unknown ID"))))))
  | _ => lit "Unknown ID"
  end.

(** One turn of the loop over [data]: what it does to [output_items]. *)
Definition format_item (formatter : pydict -> result pystr) (entity : pystr)
    (output_items : list pystr) (item : value) : list pystr :=
  match item with
  | VDict d =>
      match formatter d with
      | Ok s => output_items ++ [s]
      | Raise _ =>
          output_items
          ++ [icon_warning ++ lit " Error formatting item: ID "
              ++ placeholder_id entity item]
      end
  | _ => output_items
  end.

Definition SEPARATOR : pystr := NL ++ NL ++ lit "---" ++ NL ++ NL.

(** [output_items] after the loop over [data]. *)
Definition output_items_of (formatter : pydict -> result pystr)
    (entity : pystr) (data : list value) : list pystr :=
  fold_left (format_item formatter entity) data [].

(** [format_response], with the layout function as an argument. *)
Definition format_response_with (formatter : pydict -> result pystr)
    (data : list value) (entity : pystr) (filters : pydict) : pystr :=
  match data with
  | [] =>
      match filters with
      | _ :: _ =>
          icon_info ++ lit " No " ++ entity ++ lit " found matching"
          ++ format_filters filters ++ lit "."
      | [] => icon_info ++ lit " No " ++ entity ++ lit " found."
      end
  | _ =>
      let output_items := output_items_of formatter entity data in
      let title :=
        match filters with
        | _ :: _ =>
            icon_search ++ lit " *Found "
            ++ str_of_nat (List.length output_items) ++ lit " "
            ++ capitalize entity ++ format_filters filters
            ++ lit "*:" ++ NL ++ NL
        | [] =>
            icon_search ++ lit " *Found "
            ++ str_of_nat (List.length output_items) ++ lit " "
            ++ capitalize entity ++ lit "*:" ++ NL ++ NL
        end in
      let response_body := join SEPARATOR output_items in
      title ++ response_body
  end.

Definition format_response (data : list value) (entity : pystr)
    (filters : pydict) : pystr :=
  format_response_with (select_formatter entity) data entity filters.

(** ** The reply step of [handle_message] *)

Definition MAX_LEN : nat := 4096.

(** [s.rfind(sub, 0, stop)]: the scan keeps the last index [i] at which
    [sub] starts and ends at or before [stop]; [None] is Python's [-1]. *)
Fixpoint rfind_scan (sub s : pystr) (i stop : nat) (last : option nat)
  : option nat :=
  let last' :=
    if (i + List.length sub <=? stop)%nat && startswith sub s
    then Some i else last in
  match s with
  | [] => last'
  | _ :: s' => rfind_scan sub s' (S i) stop last'
  end.

Definition rfind (sub s : pystr) (stop : nat) : option nat :=
  rfind_scan sub s 0 stop None.

Definition ELLIPSIS : pystr := NL ++ NL ++ lit "[...]" ++ icon_scissors.

Definition shortened_notice (entity : pystr) : pystr :=
  icon_info ++ lit " The list for *" ++ entity
  ++ lit "* was too long and had to be shortened.".

(** The texts handed to [reply_text], in order, for a formatted response. *)
Definition send_response (response_text entity : pystr) : list pystr :=
  if (MAX_LEN <? List.length response_text)%nat then
    let trunc_point :=
      match rfind SEPARATOR response_text (MAX_LEN - 20) with
      | Some i => i
      | None => (MAX_LEN - 20)%nat
      end in
    let truncated_message := firstn trunc_point response_text ++ ELLIPSIS in
    [truncated_message; shortened_notice entity]
  else [response_text].

(** [[item for item in all_data if apply_filter(item, filters, entity)]],
    for a fetch that returned objects. *)
Fixpoint select_records (all_data : list pydict) (filters : pydict)
    (entity : pystr) : result (list pydict) :=
  match all_data with
  | [] => Ok []
  | item :: rest =>
      match apply_filter item filters entity with
      | Raise e => Raise e
      | Ok keep =>
          match select_records rest filters entity with
          | Raise e => Raise e
          | Ok kept => Ok (if keep then item :: kept else kept)
          end
      end
  end.

(** From the fetched records and the extracted filters to the replies:
    the last part of the [try] of [handle_message]. *)
Definition reply_for_records (all_data : list pydict) (filters : pydict)
    (entity : pystr) : result (list pystr) :=
  let filtered_data :=
    match filters with
    | _ :: _ => select_records all_data filters entity
    | [] => Ok all_data
    end in
  match filtered_data with
  | Raise e => Raise e
  | Ok filtered_data =>
      Ok (send_response
            (format_response (map VDict filtered_data) entity filters)
            entity)
  end.

End WithBuiltins.

(** ** Items of any shape

    [fetch_data] hands on whatever list the data source sent, so the item
    that [apply_filter] receives from [handle_message] need not be a dict:
    [field in item] and [item[field]] then act on a string, a list or a
    scalar. *)

(** [field in item] *)
Definition item_contains (field : pystr) (item : value) : result bool :=
  match item with
  | VDict d => Ok match dict_get field d with
                  | Some _ => true
                  | None => false
                  end
  | VStr s => Ok (contains field s)
  | VList l => Ok (existsb (fun v => match v with
                                     | VStr s => str_eqb field s
                                     | _ => false
                                     end) l)
  | VNone | VBool _ | VInt _ | VFloat _ => Raise TypeError
  end.

(** [item[field]] with a string key. *)
Definition item_subscript (field : pystr) (item : value) : result value :=
  match item with
  | VDict d => match dict_get field d with
               | Some v => Ok v
               | None => Raise KeyError
               end
  | _ => Raise TypeError
  end.

(** ** The outside world of [handle_message] *)

(** What [requests.get(url, timeout=20)] and the two calls on its response
    can do: the request raises, or it returns a response whose
    [raise_for_status()] passes or not and whose [json()] returns or
    raises. *)
Inductive http_reply : Type :=
| HttpRaises
| HttpResponse (status_ok : bool) (body : result value).

(** The calls that leave the process, in the order they are made. *)
Inductive event : Type :=
| ChatAction
| Generate (prompt : pystr)
| HttpGet (url : pystr)
| Reply (message : pystr) (markdown : bool).

(** A computation that makes such calls and returns or raises. *)
Definition io (A : Type) : Type := (list event * result A)%type.

Definition io_ret {A : Type} (a : A) : io A := ([], Ok a).

Definition io_bind {A B : Type} (m : io A) (f : A -> io B) : io B :=
  match m with
  | (trace, Ok a) => let (trace', r) := f a in (trace ++ trace', r)
  | (trace, Raise e) => (trace, Raise e)
  end.

(** [try: m except ...: handler] *)
Definition io_catch {A : Type} (m : io A) (handler : exn -> io A) : io A :=
  match m with
  | (trace, Ok a) => (trace, Ok a)
  | (trace, Raise e) => let (trace', r) := handler e in (trace ++ trace', r)
  end.

Definition is_reply (ev : event) : bool :=
  match ev with
  | Reply _ _ => true
  | _ => false
  end.

Definition is_http_get (ev : event) : bool :=
  match ev with
  | HttpGet _ => true
  | _ => false
  end.

Section Orchestrator.

Context {builtins : PyBuiltins}.
Variable generate_content : pystr -> generation.
Variable http_get : pystr -> http_reply.
Variable reply_text : pystr -> bool -> result unit.

(** The string branch of [apply_filter], the item field not yet read:
    [item[field]] is evaluated after the shape tests. *)
Definition string_condition_item (condition : value)
    (item_field : result value) : result bool :=
  match condition with
  | VStr c =>
      if startswith (lit "contains '") c && endswith (lit "'") c then
        let text := lower (slice_to_last (List.length (lit "contains '")) c) in
        match item_field with
        | Raise e => Raise e
        | Ok v =>
            if negb (contains text (lower (py_str v)))
            then Ok false else Ok true
        end
      else if startswith (lit "exact '") c && endswith (lit "'") c then
        let text := lower (slice_to_last (List.length (lit "exact '")) c) in
        match item_field with
        | Raise e => Raise e
        | Ok v =>
            if negb (str_eqb (lower (py_str v)) text)
            then Ok false else Ok true
        end
      else Ok false
  | _ => Raise AttributeError
  end.

(** The chain of operator tests of the number branch. *)
Definition compare_by_operator (op : pystr) (item_value value : spec_float)
  : result bool :=
  if str_eqb op (lit "<") then
    if SFleb value item_value then Ok false else Ok true
  else if str_eqb op (lit ">") then
    if SFleb item_value value then Ok false else Ok true
  else if str_eqb op (lit "=") then
    if negb (SFeqb item_value value) then Ok false else Ok true
  else if str_eqb op (lit "<=") then
    if SFltb value item_value then Ok false else Ok true
  else if str_eqb op (lit ">=") then
    if SFltb item_value value then Ok false else Ok true
  else Ok false.

(** The number branch, the item field not yet read: [float(item[field])]
    comes after [float(value_str)], inside the [try]. *)
Definition number_condition_item (condition : value)
    (item_field : result value) : result bool :=
  let body :=
    match condition with
    | VStr c =>
        match split_space_1 c with
        | [op; value_str] =>
            match py_float (VStr value_str) with
            | Raise e => Raise e
            | Ok value =>
                match item_field with
                | Raise e => Raise e
                | Ok v =>
                    match py_float v with
                    | Raise e => Raise e
                    | Ok item_value => compare_by_operator op item_value value
                    end
                end
            end
        | _ => Ok false
        end
    | _ => Raise AttributeError
    end in
  match body with
  | Raise e => if is_value_or_type_error e then Ok false else Raise e
  | r => r
  end.

(** [apply_filter] on an item of any shape. *)
Fixpoint apply_filter_item (item : value) (filters : pydict) (entity : pystr)
  : result bool :=
  match filters with
  | [] => Ok true
  | (field, condition) :: rest =>
      match item_contains field item with
      | Raise e => Raise e
      | Ok false => apply_filter_item item rest entity
      | Ok true =>
          let field_type := field_type_of entity field in
          if opt_str_eqb field_type (lit "string") then
            match string_condition_item condition (item_subscript field item)
            with
            | Ok true => apply_filter_item item rest entity
            | r => r
            end
          else if opt_str_eqb field_type (lit "number") then
            match number_condition_item condition (item_subscript field item)
            with
            | Ok true => apply_filter_item item rest entity
            | r => r
            end
          else apply_filter_item item rest entity
      end
  end.

(** [[item for item in all_data if apply_filter(item, filters, entity)]] *)
Fixpoint select_items (all_data : list value) (filters : pydict)
    (entity : pystr) : result (list value) :=
  match all_data with
  | [] => Ok []
  | item :: rest =>
      match apply_filter_item item filters entity with
      | Raise e => Raise e
      | Ok keep =>
          match select_items rest filters entity with
          | Raise e => Raise e
          | Ok kept => Ok (if keep then item :: kept else kept)
          end
      end
  end.

(** [fetch_data]: every exception ends in [None]. *)
Definition fetch_data (entity : pystr) : option (list value) :=
  match assoc entity DATA_SOURCES with
  | None | Some [] => None
  | Some url =>
      match http_get url with
      | HttpRaises => None
      | HttpResponse false _ => None
      | HttpResponse true (Ok (VList data)) => Some data
      | HttpResponse true (Ok (VDict d)) => Some [VDict d]
      | HttpResponse true _ => None
      end
  end.

(** The request that [fetch_data] makes, if any. *)
Definition fetch_data_calls (entity : pystr) : list event :=
  match assoc entity DATA_SOURCES with
  | None | Some [] => []
  | Some url => [HttpGet url]
  end.

Definition conversation_prompt (query : pystr) : pystr :=
  NL
  ++ lit "    You are a friendly Telegram bot assistant named ChainX Bot. A user has sent you the message: "
  ++ DQ ++ query ++ DQ ++ lit "." ++ NL
  ++ lit "    This message doesn't seem to request data about specific entities like sellers, products, or warehouses."
  ++ NL
  ++ lit "    Respond in a casual, friendly tone as if continuing a conversation. Keep the response short (1-2 sentences), appropriate, and engaging."
  ++ NL ++ lit "    If the query is a greeting like " ++ DQ ++ lit "hi" ++ DQ
  ++ lit " or " ++ DQ ++ lit "hello" ++ DQ
  ++ lit ", greet them back and invite them to ask about data." ++ NL
  ++ lit "    Avoid generating responses that assume specific entity data unless explicitly mentioned."
  ++ NL ++ lit "    ".

Definition CHAT_SERVICE_FALLBACK : pystr :=
  lit "Oops, something went wrong. Want to try asking about some data?".

Definition CHAT_LOCAL_FALLBACK : pystr :=
  lit "Hmm, I got a bit tangled up. How about asking for some seller or product info?".

(** [generate_conversational_response]: both handlers return a fixed text. *)
Definition generate_conversational_response (query : pystr) : pystr :=
  let fallback (e : exn) :=
    match e with
    | GoogleAPIError => CHAT_SERVICE_FALLBACK
    | _ => CHAT_LOCAL_FALLBACK
    end in
  match generate_content (conversation_prompt query) with
  | GenerationRaises e => fallback e
  | Generated r =>
      match hasattr_text r with
      | Raise e => fallback e
      | Ok false => lit "Hey! What's up?"
      | Ok true =>
          match text r with
          | Ok t => strip t
          | Raise e => fallback e
          end
      end
  end.

Definition fetch_error_message (entity : pystr) : pystr :=
  icon_warning ++ lit " Sorry, I couldn't fetch data for *" ++ entity
  ++ lit "*. The data source might be unavailable or returned an unexpected format. Please try again later.".

Definition AI_SERVICE_MESSAGE : pystr :=
  icon_warning
  ++ lit " Sorry, I encountered an issue communicating with the AI analysis service. Please try again later.".

Definition PROCESSING_MESSAGE : pystr :=
  icon_warning
  ++ lit " Sorry, I encountered an issue processing the data or your query.".

Definition UNEXPECTED_MESSAGE : pystr :=
  icon_warning
  ++ lit " An unexpected error occurred. I've logged the issue. Please try again or contact the administrator if the problem persists.".

(** [await update.message.reply_text(message, ...)] *)
Definition reply (message : pystr) (markdown : bool) : io unit :=
  ([Reply message markdown], reply_text message markdown).

(** The replies of one branch, sent in order until one raises. *)
Fixpoint reply_each (messages : list pystr) : io unit :=
  match messages with
  | [] => io_ret tt
  | message :: rest => io_bind (reply message true) (fun _ => reply_each rest)
  end.

(** The [except] clauses of [handle_message], in their order.  Nothing in
    the [try] raises a [RequestException] ([fetch_data] catches its own), so
    that clause has no case here. *)
Definition error_reply (e : exn) : io unit :=
  match e with
  | GoogleAPIError => reply AI_SERVICE_MESSAGE false
  | ValueError | JSONDecodeError => reply PROCESSING_MESSAGE false
  | _ => reply UNEXPECTED_MESSAGE false
  end.

(** The calls that [extract_filters] makes, if any. *)
Definition extract_filters_calls (entity query : pystr) : list event :=
  match assoc entity FIELD_TYPES with
  | None => []
  | Some entity_fields =>
      [Generate (extract_filters_prompt entity
                   (join (lit ", ") (map fst entity_fields)) query)]
  end.

(** The [try] of [handle_message]. *)
Definition handle_message_body (user_query : pystr) : io unit :=
  io_bind ([Generate (detect_entity_prompt user_query)],
           detect_entity generate_content user_query)
    (fun entity =>
       match entity with
       | None | Some [] =>
           io_bind ([Generate (conversation_prompt user_query)],
                    Ok (generate_conversational_response user_query))
             (fun conversational_response =>
                reply conversational_response true)
       | Some entity =>
           match fetch_data entity with
           | None =>
               io_bind (fetch_data_calls entity, Ok tt)
                 (fun _ => reply (fetch_error_message entity) true)
           | Some all_data =>
               io_bind (fetch_data_calls entity, Ok tt) (fun _ =>
               io_bind (extract_filters_calls entity user_query,
                        extract_filters generate_content entity user_query)
                 (fun filters =>
                    io_bind ([], match filters with
                                 | _ :: _ => select_items all_data filters entity
                                 | [] => Ok all_data
                                 end)
                      (fun filtered_data =>
                         reply_each
                           (send_response
                              (format_response filtered_data entity filters)
                              entity))))
           end
       end).

(** [handle_message] for the text of the update, [None] when the update has
    no message or the message no text.  The typing indicator is tried first
    and its failure is only logged. *)
Definition handle_message (message_text : option pystr) : io unit :=
  match message_text with
  | None | Some [] => io_ret tt
  | Some user_query =>
      io_bind ([ChatAction], Ok tt)
        (fun _ => io_catch (handle_message_body user_query) error_reply)
  end.

End Orchestrator.

(** A runtime for closed examples.  The examples use ASCII text and integers,
    which never reach the case mapping, digit and float-text fields; its JSON
    decoder rejects every text. *)
Definition ascii_runtime : PyBuiltins :=
  {| unicode_lower := fun s => s;
     unicode_capitalize := fun s => s;
     unicode_decimal := fun _ => None;
     float_repr := fun _ => lit "nan";
     container_repr := fun _ => lit "[]";
     json_loads := fun _ => Raise JSONDecodeError;
     json_dumps_indent2 := fun _ => Ok (lit "{}") |}.

(** An inference capability that answers every prompt with the same text. *)
Definition answering (t : pystr) : pystr -> generation :=
  fun _ => Generated {| text := Ok t |}.


(** ** Vocabulary of the statements *)

(** The value of one decimal digit. *)
Definition numeral_digit (c : pychar) : option N :=
  if ((48 <=? c) && (c <=? 57))%N then Some (c - 48)%N else None.

(** The number that a text of digits writes after [acc], read from the
    left; [None] when a character is not a digit. *)
Fixpoint numeral_value (s : pystr) (acc : N) : option N :=
  match s with
  | [] => Some acc
  | c :: s' =>
      match numeral_digit c with
      | Some digit => numeral_value s' (10 * acc + digit)%N
      | None => None
      end
  end.

(** The number that a decimal numeral writes.  A numeral is not empty, has
    digits only and, ["0"] itself apart, does not start with a zero: one
    number has one numeral. *)
Definition decimal_value (s : pystr) : option nat :=
  match s with
  | [] => None
  | c :: rest =>
      if N.eqb c 48 && negb (match rest with [] => true | _ => false end)
      then None
      else option_map N.to_nat (numeral_value s 0)
  end.

(** The conditions whose field the schema of [entity] declares. *)
Definition declared (entity : pystr) (fc : pystr * value) : bool :=
  match field_type_of entity (fst fc) with
  | Some _ => true
  | None => false
  end.

(** The two condition shapes for a string field: [contains '<t>'] *)
Definition contains_condition (t : pystr) : value :=
  VStr (lit "contains '" ++ t ++ lit "'").

(** [exact '<t>'] *)
Definition exact_condition (t : pystr) : value :=
  VStr (lit "exact '" ++ t ++ lit "'").

(** Two floats are ordered when neither is a NaN. *)
Definition ordered (a b : spec_float) : Prop :=
  exists c, SFcompare a b = Some c.

(** What the operator table of the specification gives; [None] for a token
    that is not an operator. *)
Definition operator_table (op : pystr) (item_value value : spec_float)
  : option bool :=
  if str_eqb op (lit "<") then Some (SFltb item_value value)
  else if str_eqb op (lit ">") then Some (SFltb value item_value)
  else if str_eqb op (lit "=") then Some (SFeqb item_value value)
  else if str_eqb op (lit "<=") then Some (SFleb item_value value)
  else if str_eqb op (lit ">=") then Some (SFleb value item_value)
  else None.

(** A product record with a price, and a FilterSet on the price. *)
Definition price_record (price : Z) : pydict :=
  [(lit "product_name", VStr (lit "item")); (lit "product_price", VInt price)].

Definition price_filter (condition : value) : pydict :=
  [(lit "product_price", condition)].

(** Ten products, three of them under 50. *)
Definition ten_products : list pydict :=
  map price_record [10; 20; 30; 50; 60; 70; 80; 90; 100; 110].

(** The six entity names. *)
Definition known_entities : list pystr := map fst DATA_SOURCES.

(** [sub] starts at index [k] of [s] and ends at or before [stop]. *)
Definition occurs_within (sub s : pystr) (stop k : nat) : Prop :=
  (k <= List.length s)%nat /\ (k + List.length sub <= stop)%nat
  /\ startswith sub (skipn k s) = true.

(** A product record with a field that the schema does not declare. *)
Definition shirt : pydict :=
  [(lit "product_name", VStr (lit "XABCX")); (lit "colour", VStr (lit "red"));
   (lit "product_price", VInt 10)].

(** A layout function that fails on every record. *)
Definition failing_layout : pydict -> result pystr :=
  fun _ => Raise OtherException.

(** A response of 5000 characters without a separator. *)
Definition long_text : pystr := repeat 97%N 5000.

(** Two product records, the first with a name of 3848 characters, and the
    response that lists them, of 4281 characters: its only separator starts
    at index 4072, before index [MAX_LEN - 20], and ends after it. *)
Definition straddling_products : list pydict :=
  [[(lit "product_name", VStr (repeat 97%N 3848))]; shirt].

Definition straddling_text : pystr :=
  @format_response ascii_runtime (map VDict straddling_products)
    (lit "products") [].

(** Forty product records, and the response that lists them all. *)
Definition forty_products : list pydict := repeat shirt 40.

Definition forty_products_response : pystr :=
  @format_response ascii_runtime (map VDict forty_products) (lit "products")
    [].

(** Whether the record satisfies one condition taken on its own. *)
Definition passes {builtins : PyBuiltins} (item : pydict) (entity : pystr)
    (fc : pystr * value) : bool :=
  match apply_filter item [fc] entity with
  | Ok true => true
  | _ => false
  end.

(** Whether the record satisfies the whole FilterSet. *)
Definition matches {builtins : PyBuiltins} (filters : pydict) (entity : pystr)
    (item : pydict) : bool :=
  match apply_filter item filters entity with
  | Ok true => true
  | _ => false
  end.

Definition is_generate (ev : event) : bool :=
  match ev with
  | Generate _ => true
  | _ => false
  end.

(** The text that the [except] clauses of [handle_message] send for [e]. *)
Definition error_message (e : exn) : pystr :=
  match e with
  | GoogleAPIError => AI_SERVICE_MESSAGE
  | ValueError | JSONDecodeError => PROCESSING_MESSAGE
  | _ => UNEXPECTED_MESSAGE
  end.

(** What a trace may send: every reply has at most [MAX_LEN] characters. *)
Definition reply_within_limit (ev : event) : Prop :=
  match ev with
  | Reply message _ => (List.length message <= MAX_LEN)%nat
  | _ => True
  end.

(** Values that are neither a dict, a list nor a string. *)
Definition is_scalar (v : value) : bool :=
  match v with
  | VNone | VBool _ | VInt _ | VFloat _ => true
  | _ => false
  end.

(** A runtime whose JSON decoder returns [v] for every text. *)
Definition decoding_runtime (v : value) : PyBuiltins :=
  {| unicode_lower := fun s => s;
     unicode_capitalize := fun s => s;
     unicode_decimal := fun _ => None;
     float_repr := fun _ => lit "nan";
     container_repr := fun _ => lit "[]";
     json_loads := fun _ => Ok v;
     json_dumps_indent2 := fun _ => Ok (lit "{}") |}.

(** A data source that answers every request with [body] and status 200. *)
Definition serving (body : value) : pystr -> http_reply :=
  fun _ => HttpResponse true (Ok body).

(** A data source that answers every request with status 500. *)
Definition failing_source : pystr -> http_reply :=
  fun _ => HttpResponse false (Raise JSONDecodeError).

(** A chat front-end that accepts every reply. *)
Definition accepting : pystr -> bool -> result unit := fun _ _ => Ok tt.

(** A chat front-end that refuses every reply. *)
Definition refusing : pystr -> bool -> result unit :=
  fun _ _ => Raise OtherException.

(** An inference capability that fails on every prompt. *)
Definition unavailable : pystr -> generation :=
  fun _ => GenerationRaises GoogleAPIError.

(** Every type in a field table is ['string'] or ['number']. *)
Definition well_typed_table (fields : list (pystr * pystr)) : bool :=
  forallb (fun ft => str_eqb (snd ft) (lit "string")
                     || str_eqb (snd ft) (lit "number")) fields.

(** The event that a reply, sent as Markdown or not, leaves in the trace. *)
Definition sent_event (sent : pystr * bool) : event :=
  Reply (fst sent) (snd sent).

(** A FilterSet on the price, and the same conditions in the other order. *)
Definition two_conditions : pydict :=
  [(lit "product_price", VStr (lit "< 50"));
   (lit "product_name", VStr (lit "contains 'abc'"))].

Definition two_conditions_swapped : pydict :=
  [(lit "product_name", VStr (lit "contains 'abc'"));
   (lit "product_price", VStr (lit "< 50"))].

(** ** String lemmas *)

Lemma str_eqb_eq (a b : pystr) : str_eqb a b = true <-> a = b.
Proof.
  revert b; induction a as [|x a IH]; intros [|y b]; simpl; split;
    try congruence; try reflexivity.
  - intros H. apply andb_true_iff in H as [Hx Hab].
    apply N.eqb_eq in Hx. apply IH in Hab. congruence.
  - intros H. injection H as -> ->.
    apply andb_true_iff. split; [apply N.eqb_refl | now apply IH].
Qed.

Lemma str_eqb_refl (a : pystr) : str_eqb a a = true.
Proof. now apply str_eqb_eq. Qed.

Lemma startswith_spec (p s : pystr) :
  startswith p s = true <-> exists post, s = p ++ post.
Proof.
  revert s; induction p as [|x p IH]; intros s; simpl.
  - split; [intros _; now exists s | reflexivity].
  - destruct s as [|y s]; split.
    + discriminate.
    + intros [post H]; discriminate.
    + intros H. apply andb_true_iff in H as [Hx Hp].
      apply N.eqb_eq in Hx. apply IH in Hp as [post ->].
      exists post. now rewrite Hx.
    + intros [post H]. injection H as -> ->.
      apply andb_true_iff. split; [apply N.eqb_refl|].
      apply IH. now exists post.
Qed.

Lemma startswith_app (p s : pystr) : startswith p (p ++ s) = true.
Proof. apply startswith_spec. now exists s. Qed.

Lemma endswith_app (q s : pystr) : endswith q (s ++ q) = true.
Proof. unfold endswith. rewrite rev_app_distr. apply startswith_app. Qed.

Lemma slice_to_last_app (p body q : pystr) :
  List.length q = 1%nat ->
  slice_to_last (List.length p) (p ++ body ++ q) = body.
Proof.
  intros Hq. unfold slice_to_last.
  rewrite skipn_app, skipn_all, Nat.sub_diag. simpl.
  rewrite !length_app, Hq.
  replace (List.length p + (List.length body + 1) - 1 - List.length p)%nat
    with (List.length body + 0)%nat by lia.
  now rewrite firstn_app_2, firstn_O, app_nil_r.
Qed.

Lemma contains_spec (sub s : pystr) :
  contains sub s = true <-> exists pre post, s = pre ++ sub ++ post.
Proof.
  induction s as [|c s IH]; simpl.
  - rewrite orb_false_r, startswith_spec. split.
    + intros [post H]. now exists [], post.
    + intros [pre [post H]]. destruct pre; [now exists post | discriminate].
  - rewrite orb_true_iff, startswith_spec, IH. split.
    + intros [[post H] | [pre [post H]]].
      * now exists [], post.
      * exists (c :: pre), post. now rewrite H.
    + intros [[|x pre] [post H]].
      * left. now exists post.
      * right. injection H as _ H. now exists pre, post.
Qed.

(** ** The predicate evaluator *)

Section Evaluator.

Context {builtins : PyBuiltins}.

(** How the loop of [apply_filter] treats its first condition. *)
Lemma apply_filter_absent item field condition rest entity :
  dict_get field item = None ->
  apply_filter item ((field, condition) :: rest) entity
  = apply_filter item rest entity.
Proof. intros H. simpl. now rewrite H. Qed.

Lemma apply_filter_string item field condition rest entity v :
  dict_get field item = Some v ->
  field_type_of entity field = Some (lit "string") ->
  apply_filter item ((field, condition) :: rest) entity
  = match string_condition condition v with
    | Ok true => apply_filter item rest entity
    | r => r
    end.
Proof. intros Hv Ht. simpl. now rewrite Hv, Ht. Qed.

Lemma apply_filter_number item field condition rest entity v :
  dict_get field item = Some v ->
  field_type_of entity field = Some (lit "number") ->
  apply_filter item ((field, condition) :: rest) entity
  = match number_condition condition v with
    | Ok true => apply_filter item rest entity
    | r => r
    end.
Proof. intros Hv Ht. simpl. now rewrite Hv, Ht. Qed.

Lemma apply_filter_unknown_field item field condition rest entity :
  field_type_of entity field = None ->
  apply_filter item ((field, condition) :: rest) entity
  = apply_filter item rest entity.
Proof. intros Ht. simpl. rewrite Ht. now destruct (dict_get field item). Qed.

(** C6. A record that has none of the fields named in the FilterSet satisfies
    [apply_filter], whatever the conditions and the entity are: every
    condition is skipped and the loop ends with [True]. *)
Theorem apply_filter_vacuous item filters entity :
  (forall field condition,
      In (field, condition) filters -> dict_get field item = None) ->
  apply_filter item filters entity = Ok true.
Proof.
  induction filters as [|[field condition] rest IH]; intros H.
  - reflexivity.
  - rewrite apply_filter_absent.
    + apply IH. intros f c Hin. apply (H f c). now right.
    + apply (H field condition). now left.
Qed.

(** C9. A condition on a field that the schema of the entity does not declare
    is ignored: dropping it anywhere in the FilterSet changes nothing, and the
    outcome is the outcome of the declared conditions alone.  This holds for
    every entity name, known or not. *)
Theorem apply_filter_ignores_undeclared item entity :
  (forall before field condition after,
      field_type_of entity field = None ->
      apply_filter item (before ++ (field, condition) :: after) entity
      = apply_filter item (before ++ after) entity)
  /\ (forall filters,
         apply_filter item filters entity
         = apply_filter item (filter (declared entity) filters) entity).
Proof.
  split.
  - intros before field condition after Ht.
    induction before as [|[f c] before IH].
    + now apply apply_filter_unknown_field.
    + simpl. rewrite IH. reflexivity.
  - induction filters as [|[field condition] rest IH].
    + reflexivity.
    + cbn [filter]. unfold declared at 1. cbn [fst].
      destruct (field_type_of entity field) as [t|] eqn:Ht.
      * simpl. rewrite Ht, IH. reflexivity.
      * rewrite apply_filter_unknown_field by exact Ht. exact IH.
Qed.

Lemma string_condition_contains t v :
  string_condition (contains_condition t) v
  = Ok (contains (lower t) (lower (py_str v))).
Proof.
  unfold string_condition, contains_condition.
  rewrite startswith_app, app_assoc, endswith_app, <- app_assoc. cbn [andb].
  rewrite slice_to_last_app by reflexivity.
  now destruct (contains (lower t) (lower (py_str v))).
Qed.

Lemma string_condition_exact t v :
  string_condition (exact_condition t) v
  = Ok (str_eqb (lower (py_str v)) (lower t)).
Proof.
  unfold string_condition, exact_condition.
  replace (startswith (lit "contains '") (lit "exact '" ++ t ++ lit "'"))
    with false by reflexivity.
  cbn [andb].
  rewrite startswith_app, app_assoc, endswith_app, <- app_assoc. cbn [andb].
  rewrite slice_to_last_app by reflexivity.
  now destruct (str_eqb (lower (py_str v)) (lower t)).
Qed.

(** C5. On a field that the record has and the schema types as a string,
    [contains '<t>'] passes exactly when the lowercased [t] occurs inside the
    lowercased text of the field value, and [exact '<t>'] exactly when the two
    lowercased texts are equal; a failing condition returns [False] at once, a
    passing one hands over to the remaining conditions. *)
Theorem string_conditions_match item field entity v t rest :
  dict_get field item = Some v ->
  field_type_of entity field = Some (lit "string") ->
  (apply_filter item ((field, contains_condition t) :: rest) entity
   = if contains (lower t) (lower (py_str v))
     then apply_filter item rest entity else Ok false)
  /\ (apply_filter item [(field, contains_condition t)] entity = Ok true
      <-> exists before after, lower (py_str v) = before ++ lower t ++ after)
  /\ (apply_filter item ((field, exact_condition t) :: rest) entity
      = if str_eqb (lower (py_str v)) (lower t)
        then apply_filter item rest entity else Ok false)
  /\ (apply_filter item [(field, exact_condition t)] entity = Ok true
      <-> lower (py_str v) = lower t).
Proof.
  intros Hv Ht.
  rewrite !(@apply_filter_string item field _ _ entity v Hv Ht).
  rewrite string_condition_contains, string_condition_exact.
  rewrite <- contains_spec, <- str_eqb_eq.
  split; [now destruct (contains (lower t) (lower (py_str v)))|].
  split; [destruct (contains (lower t) (lower (py_str v))); simpl;
          split; congruence|].
  split; [now destruct (str_eqb (lower (py_str v)) (lower t))|].
  destruct (str_eqb (lower (py_str v)) (lower t)); simpl; split; congruence.
Qed.

End Evaluator.

(** ** Numeric conditions *)

Section NumericConditions.

Context {builtins : PyBuiltins}.

Lemma SFcompare_antisym (a b : spec_float) :
  SFcompare b a = option_map CompOpp (SFcompare a b).
Proof.
  destruct a as [sa|sa| |sa ma ea], b as [sb|sb| |sb mb eb]; simpl;
    try reflexivity;
    try (destruct sa; reflexivity); try (destruct sb; reflexivity);
    try (destruct sa, sb; reflexivity).
  destruct sa, sb; simpl; try reflexivity;
    rewrite (Z.compare_antisym ea eb);
    destruct (ea ?= eb); simpl; try reflexivity;
    change (Pos.compare_cont Eq mb ma) with (mb ?= ma)%positive;
    change (Pos.compare_cont Eq ma mb) with (ma ?= mb)%positive;
    rewrite (Pos.compare_antisym ma mb);
    destruct (ma ?= mb)%positive; reflexivity.
Qed.

(** On ordered operands the negated tests of the code are the comparisons of
    the operator table. *)
Lemma negated_tests_ordered (a b : spec_float) :
  ordered a b ->
  negb (SFleb b a) = SFltb a b /\ negb (SFleb a b) = SFltb b a
  /\ negb (SFltb b a) = SFleb a b /\ negb (SFltb a b) = SFleb b a.
Proof.
  intros [c Hc]. unfold SFleb, SFltb.
  rewrite (SFcompare_antisym a b), Hc. now destruct c.
Qed.

Lemma cut_at_space_app (op rest : pystr) :
  existsb (N.eqb 32) op = false ->
  cut_at_space (op ++ lit " " ++ rest) = Some (op, rest).
Proof.
  induction op as [|c op IH]; intros H.
  - reflexivity.
  - cbn [existsb] in H. apply orb_false_iff in H as [Hc Hop].
    change ((c :: op) ++ lit " " ++ rest) with (c :: (op ++ lit " " ++ rest)).
    cbn [cut_at_space]. rewrite N.eqb_sym in Hc.
    rewrite Hc, (IH Hop). reflexivity.
Qed.

(** X1. A numeric condition with a space, on operands that parse and are
    ordered (neither is a NaN), is decided by the operator table; any other
    operator token rejects the record. *)
Lemma number_condition_ordered op value_str v value item_value :
  existsb (N.eqb 32) op = false ->
  float_from_string value_str = Some value ->
  py_float v = Ok item_value ->
  ordered item_value value ->
  number_condition (VStr (op ++ lit " " ++ value_str)) v
  = Ok match operator_table op item_value value with
       | Some b => b
       | None => false
       end.
Proof.
  intros Hop Hvalue Hitem Hord.
  destruct (negated_tests_ordered Hord) as (Hlt & Hgt & Hle & Hge).
  unfold number_condition, number_condition_body, split_space_1.
  rewrite cut_at_space_app by exact Hop.
  cbn [py_float]. rewrite Hvalue, Hitem. unfold operator_table.
  destruct (str_eqb op (lit "<"));
    [rewrite <- Hlt; now destruct (SFleb value item_value)|].
  destruct (str_eqb op (lit ">"));
    [rewrite <- Hgt; now destruct (SFleb item_value value)|].
  destruct (str_eqb op (lit "=")); [now destruct (SFeqb item_value value)|].
  destruct (str_eqb op (lit "<="));
    [rewrite <- Hle; now destruct (SFltb value item_value)|].
  destruct (str_eqb op (lit ">="));
    [rewrite <- Hge; now destruct (SFltb item_value value)|].
  reflexivity.
Qed.

(** X2. A value that does not convert to a float rejects the record, on
    either side; only an integer too large for a double escapes the
    handler. *)
Lemma number_condition_not_numeric op value_str v :
  existsb (N.eqb 32) op = false ->
  (float_from_string value_str = None ->
   number_condition (VStr (op ++ lit " " ++ value_str)) v = Ok false)
  /\ (forall e, py_float v = Raise e -> e <> OverflowError ->
      number_condition (VStr (op ++ lit " " ++ value_str)) v = Ok false).
Proof.
  intros Hop.
  unfold number_condition, number_condition_body, split_space_1.
  rewrite cut_at_space_app by exact Hop. cbn [py_float]. split.
  - intros ->. reflexivity.
  - intros e He Hne. destruct (float_from_string value_str); [|reflexivity].
    rewrite He. destruct v as [| b | z | f | t | l | d]; simpl in He;
      try discriminate; try (injection He as <-; reflexivity).
    + unfold float_from_int in He.
      destruct (float64_normalize z 0 false); try discriminate.
      injection He as <-. congruence.
    + destruct (float_from_string t); [discriminate|].
      injection He as <-. reflexivity.
Qed.

Lemma cut_at_space_none_iff (c : pystr) :
  cut_at_space c = None <-> existsb (N.eqb 32) c = false.
Proof.
  induction c as [|x c IH]; [now split|].
  cbn [cut_at_space existsb]. rewrite (N.eqb_sym 32 x).
  destruct (N.eqb x 32); cbn [orb].
  - split; discriminate.
  - rewrite <- IH. destruct (cut_at_space c) as [[a b]|]; split;
      congruence.
Qed.

(** X3. A numeric condition in which no space occurs, like ["<50"], is not
    split in two: on a record that has the field, typed as a number, the
    record is rejected whatever its value is and whatever conditions
    follow. *)
Theorem number_condition_no_space item field entity v c rest :
  dict_get field item = Some v ->
  field_type_of entity field = Some (lit "number") ->
  existsb (N.eqb 32) c = false ->
  split_space_1 c = [c]
  /\ (forall item_field, number_condition (VStr c) item_field = Ok false)
  /\ apply_filter item ((field, VStr c) :: rest) entity = Ok false.
Proof.
  intros Hv Ht Hc. apply cut_at_space_none_iff in Hc.
  assert (Hsplit : split_space_1 c = [c])
    by (unfold split_space_1; now rewrite Hc).
  assert (Hcond : forall item_field,
             number_condition (VStr c) item_field = Ok false).
  { intros item_field. unfold number_condition, number_condition_body.
    now rewrite Hsplit. }
  split; [exact Hsplit|]. split; [exact Hcond|].
  rewrite (@apply_filter_number _ item field _ _ entity v Hv Ht).
  now rewrite Hcond.
Qed.

(** X22. On a record that has the field, a condition that is not a string
    raises [AttributeError] on a string field and on a number field alike,
    whatever follows it in the FilterSet. *)
Lemma non_string_condition_raises item field entity v condition rest :
  dict_get field item = Some v ->
  (field_type_of entity field = Some (lit "string")
   \/ field_type_of entity field = Some (lit "number")) ->
  (forall c, condition <> VStr c) ->
  apply_filter item ((field, condition) :: rest) entity = Raise AttributeError.
Proof.
  intros Hv [Ht | Ht] Hc.
  - rewrite (@apply_filter_string _ item field _ _ entity v Hv Ht).
    destruct condition; try reflexivity. now destruct (Hc s).
  - rewrite (@apply_filter_number _ item field _ _ entity v Hv Ht).
    destruct condition; try reflexivity. now destruct (Hc s).
Qed.

(** The examples of the specification: [< 50] and [>= 50] at 49, 50 and 51. *)
Lemma numeric_examples :
  apply_filter (price_record 49) (price_filter (VStr (lit "< 50"))) (lit "products") = Ok true
  /\ apply_filter (price_record 50) (price_filter (VStr (lit "< 50"))) (lit "products") = Ok false
  /\ apply_filter (price_record 51) (price_filter (VStr (lit "< 50"))) (lit "products") = Ok false
  /\ apply_filter (price_record 49) (price_filter (VStr (lit ">= 50"))) (lit "products") = Ok false
  /\ apply_filter (price_record 50) (price_filter (VStr (lit ">= 50"))) (lit "products") = Ok true
  /\ apply_filter (price_record 51) (price_filter (VStr (lit ">= 50"))) (lit "products") = Ok true.
Proof. repeat split; vm_compute; reflexivity. Qed.

End NumericConditions.

(** ** Conditions that the evaluator mishandles *)

Section EvaluatorDefects.

Context {builtins : PyBuiltins}.

(** C1. A FilterSet whose condition is a JSON number, [{"product_price": 50}],
    on a record that has the field: [apply_filter] does not return [False], it
    raises [AttributeError], on a number field (the handler of the [try] only
    catches [ValueError] and [TypeError]) and on a string field alike. *)
Theorem number_valued_condition_raises :
  apply_filter (price_record 10) (price_filter (VInt 50)) (lit "products")
  = Raise AttributeError
  /\ apply_filter (price_record 10) [(lit "product_name", VInt 50)]
       (lit "products")
     = Raise AttributeError.
Proof. split; reflexivity. Qed.

(** C2. With the condition ["<50"] as the extraction prompt spells it, no
    record that has a price satisfies [apply_filter], whatever the price: the
    ten products, three of them under 50, give the "none found" reply and no
    rendered entry. *)
Theorem unspaced_condition_matches_nothing :
  (forall price,
      apply_filter (price_record price) (price_filter (VStr (lit "<50")))
        (lit "products") = Ok false)
  /\ List.length
       (filter (fun price => price <? 50)
          [10; 20; 30; 50; 60; 70; 80; 90; 100; 110]) = 3%nat
  /\ reply_for_records ten_products (price_filter (VStr (lit "<50")))
       (lit "products")
     = Ok [icon_info
           ++ lit " No products found matching where product_price <50."].
Proof. repeat split; intros; reflexivity. Qed.

(** With a space the same scenario gives the three entries. *)
Lemma spaced_condition_finds_three :
  select_records ten_products (price_filter (VStr (lit "< 50")))
    (lit "products")
  = Ok (map price_record [10; 20; 30])
  /\ exists entries,
      reply_for_records ten_products (price_filter (VStr (lit "< 50")))
        (lit "products")
      = Ok [icon_search
            ++ lit " *Found 3 Products where product_price < 50*:"
            ++ NL ++ NL ++ entries].
Proof.
  split; [vm_compute; reflexivity|].
  eexists. vm_compute. reflexivity.
Qed.

(** C4. A price that is a NaN, as the JSON literal or as the text ["nan"],
    converts to a float, and the operator table gives [False] for every
    comparison with it; yet the conditions [< 50] and [>= 50] accept the
    record, because the code rejects on the negated comparison. *)
Theorem nan_passes_inequalities :
  py_float (VStr (lit "nan")) = Ok S754_nan
  /\ (forall value, operator_table (lit "<") S754_nan value = Some false)
  /\ (forall value, operator_table (lit ">=") S754_nan value = Some false)
  /\ apply_filter [(lit "product_price", VStr (lit "nan"))]
       (price_filter (VStr (lit "< 50"))) (lit "products") = Ok true
  /\ apply_filter [(lit "product_price", VFloat S754_nan)]
       (price_filter (VStr (lit ">= 50"))) (lit "products") = Ok true.
Proof.
  repeat split; try reflexivity.
  intros value. unfold operator_table. cbn.
  now destruct value.
Qed.

End EvaluatorDefects.

(** ** The inference-backed steps *)

Section Inference.

Context {builtins : PyBuiltins}.
Variable generate_content : pystr -> generation.

Lemma assoc_none_iff {A : Type} (k : pystr) (l : list (pystr * A)) :
  assoc k l = None <-> ~ In k (map fst l).
Proof.
  induction l as [|[k' a] l IH]; simpl.
  - tauto.
  - destruct (str_eqb k k') eqn:E.
    + apply str_eqb_eq in E. split; [discriminate | intros H; destruct H; auto].
    + rewrite IH. split.
      * intros H [Hk | Hin]; [|tauto].
        subst k'. now rewrite str_eqb_refl in E.
      * tauto.
Qed.

Lemma in_data_sources_iff (entity : pystr) :
  in_data_sources entity = true <-> In entity known_entities.
Proof.
  unfold in_data_sources, known_entities.
  destruct (assoc entity DATA_SOURCES) eqn:E.
  - split; [intros _|reflexivity].
    destruct (in_dec (list_eq_dec N.eq_dec) entity (map fst DATA_SOURCES))
      as [Hin | Hout]; [exact Hin|].
    apply assoc_none_iff in Hout. congruence.
  - apply assoc_none_iff in E. split; [discriminate | tauto].
Qed.

(** Every known entity has a field table. *)
Lemma known_entity_has_fields (entity : pystr) :
  In entity known_entities ->
  exists entity_fields, assoc entity FIELD_TYPES = Some entity_fields.
Proof.
  unfold known_entities. simpl.
  intros [<- | [<- | [<- | [<- | [<- | [<- | []]]]]]]; eexists; reflexivity.
Qed.

(** What [detect_entity] returns is a known entity. *)
Lemma detect_entity_known query entity :
  detect_entity generate_content query = Ok (Some entity) ->
  In entity known_entities.
Proof.
  unfold detect_entity.
  destruct (generate_content _) as [r | e]; [|discriminate].
  destruct (hasattr_text r) as [[|] | e]; try discriminate.
  - destruct (text r) as [t | e]; [|discriminate].
    destruct (str_eqb _ _ || negb (in_data_sources (lower (strip t)))) eqn:E;
      [discriminate|].
    intros H. injection H as <-.
    apply orb_false_iff in E as [_ E]. apply negb_false_iff in E.
    now apply in_data_sources_iff.
Qed.


(** C7. For a known entity, [extract_filters] always returns a dict, and the
    dict is empty when the inference call raises, when reading the response
    text raises, when the stripped text is empty, when [json.loads] raises
    (the text is not valid JSON), and when the decoded value is not an
    object. *)
Theorem extract_filters_recovers entity entity_fields query :
  assoc entity FIELD_TYPES = Some entity_fields ->
  let prompt :=
    extract_filters_prompt entity (join (lit ", ") (map fst entity_fields))
      query in
  (exists filters, extract_filters generate_content entity query = Ok filters)
  /\ (forall e,
         generate_content prompt = GenerationRaises e ->
         extract_filters generate_content entity query = Ok [])
  /\ (forall r,
         generate_content prompt = Generated r ->
         (forall e, text r = Raise e ->
                    extract_filters generate_content entity query = Ok [])
         /\ (forall t, text r = Ok t ->
               (strip t = [] ->
                extract_filters generate_content entity query = Ok [])
               /\ (forall e, json_loads (strip t) = Raise e ->
                     extract_filters generate_content entity query = Ok [])
               /\ (forall v, json_loads (strip t) = Ok v ->
                     is_dict v = false ->
                     extract_filters generate_content entity query = Ok []))).
Proof.
  intros Hfields prompt. unfold extract_filters. rewrite Hfields.
  fold prompt. unfold extract_filters_body. split.
  - destruct (generate_content prompt) as [r | e]; [|now eexists].
    destruct (text r) as [t | e]; [|now eexists].
    destruct (strip t) as [|c s]; [now eexists|].
    destruct (json_loads (c :: s)) as [v | e].
    + destruct v; now eexists.
    + destruct e; now eexists.
  - split.
    + intros e ->. reflexivity.
    + intros r ->. split.
      * intros e ->. reflexivity.
      * intros t ->. split; [|split].
        -- intros ->. reflexivity.
        -- intros e He. destruct (strip t); [reflexivity|].
           rewrite He. now destruct e.
        -- intros v Hv Hd. destruct (strip t); [reflexivity|].
           rewrite Hv. now destruct v.
Qed.

(** A decoded object is handed on as it is, whatever its values are. *)
Lemma extract_filters_keeps_object entity entity_fields query r t filters :
  assoc entity FIELD_TYPES = Some entity_fields ->
  generate_content
    (extract_filters_prompt entity (join (lit ", ") (map fst entity_fields))
       query) = Generated r ->
  text r = Ok t ->
  strip t <> [] ->
  json_loads (strip t) = Ok (VDict filters) ->
  extract_filters generate_content entity query = Ok filters.
Proof.
  intros Hfields Hg Ht Hne Hj. unfold extract_filters, extract_filters_body.
  rewrite Hfields, Hg, Ht. destruct (strip t); [congruence|].
  now rewrite Hj.
Qed.

End Inference.

(** ** The response formatter *)

Section Formatter.

Context {builtins : PyBuiltins}.
Variable formatter : pydict -> result pystr.
Variable entity : pystr.

Lemma format_item_acc (output_items : list pystr) (item : value) :
  format_item formatter entity output_items item
  = output_items ++ format_item formatter entity [] item.
Proof.
  unfold format_item. destruct item; try now rewrite app_nil_r.
  now destruct (formatter d).
Qed.

Lemma fold_format_item (data : list value) (output_items : list pystr) :
  fold_left (format_item formatter entity) data output_items
  = output_items ++ flat_map (format_item formatter entity []) data.
Proof.
  revert output_items; induction data as [|item data IH]; intros acc; simpl.
  - now rewrite app_nil_r.
  - rewrite IH, (format_item_acc acc), <- app_assoc. reflexivity.
Qed.

Lemma output_items_flat_map (data : list value) :
  output_items_of formatter entity data
  = flat_map (format_item formatter entity []) data.
Proof. unfold output_items_of. now rewrite fold_format_item. Qed.

Lemma format_item_length (item : value) :
  List.length (format_item formatter entity [] item)
  = if is_dict item then 1%nat else 0%nat.
Proof.
  unfold format_item. destruct item; try reflexivity.
  now destruct (formatter d).
Qed.

Lemma lit_cons (c : ascii) (t : string) :
  lit (String c t) = N_of_ascii c :: lit t.
Proof. reflexivity. Qed.

Lemma numeral_value_acc (d : Decimal.uint) (acc : positive) :
  numeral_value (lit (NilEmpty.string_of_uint d)) (N.pos acc)
  = Some (N.pos (Pos.of_uint_acc d acc)).
Proof using Type.
  revert acc;
    induction d as [|d IH|d IH|d IH|d IH|d IH|d IH|d IH|d IH|d IH|d IH];
    intros acc; cbn [NilEmpty.string_of_uint Pos.of_uint_acc];
    [reflexivity|..];
    rewrite lit_cons; cbn [numeral_value];
    match goal with
    | |- context [numeral_digit ?c] =>
        let v := eval vm_compute in (numeral_digit c) in
        change (numeral_digit c) with v
    end; cbv iota; rewrite <- IH; f_equal; lia.
Qed.

Lemma numeral_value_of_uint (d : Decimal.uint) :
  numeral_value (lit (NilEmpty.string_of_uint d)) 0 = Some (Pos.of_uint d).
Proof using Type.
  induction d as [|d IH|d IH|d IH|d IH|d IH|d IH|d IH|d IH|d IH|d IH];
    cbn [NilEmpty.string_of_uint Pos.of_uint]; [reflexivity|..];
    rewrite lit_cons; cbn [numeral_value];
    match goal with
    | |- context [numeral_digit ?c] =>
        let v := eval vm_compute in (numeral_digit c) in
        change (numeral_digit c) with v
    end; cbv iota;
    [exact IH | apply numeral_value_acc ..].
Qed.

Lemma nzhead_not_zero (d u : Decimal.uint) :
  Decimal.nzhead d <> Decimal.D0 u.
Proof using Type. induction d; simpl; congruence. Qed.

(** [str(n)] is the decimal numeral of [n]. *)
Lemma decimal_value_str_of_nat (n : nat) :
  decimal_value (str_of_nat n) = Some n.
Proof using Type.
  destruct n as [|m]; [reflexivity|].
  unfold str_of_nat, str_of_Z.
  change (Z.of_nat (S m)) with (Z.pos (Pos.of_succ_nat m)).
  cbn [Z.to_int NilZero.string_of_int].
  set (p := Pos.of_succ_nat m).
  pose proof (DecimalPos.Unsigned.of_to p) as Hof.
  pose proof (DecimalPos.Unsigned.to_of (Pos.to_uint p)) as Hnorm.
  rewrite Hof in Hnorm. cbn [N.to_uint] in Hnorm.
  pose proof (numeral_value_of_uint (Pos.to_uint p)) as Hdigits.
  rewrite Hof in Hdigits.
  assert (Hnat : N.to_nat (N.pos p) = S m).
  { subst p. cbn [N.to_nat]. apply SuccNat2Pos.id_succ. }
  destruct (Pos.to_uint p) as [|u|u|u|u|u|u|u|u|u|u] eqn:E;
    cbn [NilZero.string_of_uint NilEmpty.string_of_uint] in *;
    try discriminate Hof;
    try (rewrite lit_cons in *; unfold decimal_value;
         match goal with
         | |- context [N.eqb ?c 48] =>
             change (N.eqb c 48) with false
         end;
         cbn [andb]; rewrite Hdigits; cbn [option_map];
         now rewrite Hnat).
  exfalso. unfold Decimal.unorm in Hnorm. cbn [Decimal.nzhead] in Hnorm.
  destruct (Decimal.nzhead u) eqn:Eu; try discriminate Hnorm.
  - injection Hnorm as ->. discriminate Hof.
  - now apply nzhead_not_zero in Eu.
Qed.

Lemma filter_length_lt_iff {A : Type} (f : A -> bool) (l : list A) :
  (List.length (filter f l) < List.length l)%nat
  <-> exists x, In x l /\ f x = false.
Proof using Type.
  induction l as [|x l IH]; cbn [filter List.length In].
  - split; [lia | intros (x & [] & _)].
  - destruct (f x) eqn:E; cbn [List.length].
    + rewrite <- Nat.succ_lt_mono, IH. split.
      * intros (y & Hin & Hy). exists y. auto.
      * intros (y & [<- | Hin] & Hy); [congruence | now exists y].
    + pose proof (filter_length_le f l). split; [|lia].
      intros _. exists x. auto.
Qed.

(** C10. On a non-empty [data], the reply is the title followed by the joined
    output items, and the number that the title writes after "Found" is the
    number of output items.  An item that is not a dict adds nothing, neither
    a layout nor a placeholder; a dict adds exactly one item, its layout or,
    when the layout function raises, the error placeholder.  So the number
    is the number of dicts in [data], and it is less than the number of
    records exactly when some record is not a dict. *)
Theorem found_count_is_output_items (filters : pydict) (data : list value) :
  data <> [] ->
  exists (count : pystr) (output_items : list pystr),
    format_response_with formatter data entity filters
    = icon_search ++ lit " *Found " ++ count ++ lit " "
      ++ capitalize entity ++ format_filters filters ++ lit "*:" ++ NL ++ NL
      ++ join SEPARATOR output_items
    /\ decimal_value count = Some (List.length output_items)
    /\ output_items
       = flat_map
           (fun item =>
              match item with
              | VDict d =>
                  [match formatter d with
                   | Ok s => s
                   | Raise _ =>
                       icon_warning ++ lit " Error formatting item: ID "
                       ++ placeholder_id entity item
                   end]
              | _ => []
              end) data
    /\ List.length output_items = List.length (filter is_dict data)
    /\ ((List.length output_items < List.length data)%nat
        <-> exists item, In item data /\ is_dict item = false).
Proof.
  intros Hne.
  exists (str_of_nat (List.length (output_items_of formatter entity data))),
    (output_items_of formatter entity data).
  assert (Hlen : List.length (output_items_of formatter entity data)
                 = List.length (filter is_dict data)).
  { rewrite output_items_flat_map.
    induction data as [|item rest IH]; [reflexivity|].
    cbn [flat_map filter]. rewrite length_app, format_item_length.
    destruct rest as [|item' rest].
    - now destruct (is_dict item).
    - rewrite IH by discriminate. now destruct (is_dict item). }
  split; [|split; [|split; [|split]]].
  - destruct data as [|item rest]; [congruence|].
    unfold format_response_with.
    destruct filters; cbn zeta; rewrite <- ?app_assoc; reflexivity.
  - apply decimal_value_str_of_nat.
  - rewrite output_items_flat_map. apply flat_map_ext.
    intros item. unfold format_item. destruct item; try reflexivity.
    now destruct (formatter d).
  - exact Hlen.
  - rewrite Hlen. apply filter_length_lt_iff.
Qed.

End Formatter.

(** ** Truncation of a long reply *)

Section Truncation.

Lemma rfind_scan_cases (sub : pystr) (stop : nat) (s : pystr) :
  let hit i k :=
    (k <= List.length s)%nat /\ (i + k + List.length sub <= stop)%nat
    /\ startswith sub (skipn k s) = true in
  forall i last,
    (rfind_scan sub s i stop last = last /\ forall k, ~ hit i k)
    \/ (exists k,
           rfind_scan sub s i stop last = Some (i + k)%nat
           /\ hit i k /\ forall j, (k < j)%nat -> ~ hit i j).
Proof.
  induction s as [|c s IH]; intros hit i last; subst hit; cbn beta.
  - cbn [rfind_scan].
    destruct ((i + List.length sub <=? stop)%nat && startswith sub []) eqn:E.
    + right. exists 0%nat. apply andb_true_iff in E as [E1 E2].
      apply Nat.leb_le in E1. rewrite Nat.add_0_r.
      split; [reflexivity|]. split.
      * simpl. repeat split; [lia | lia | exact E2].
      * intros j Hj (Hlen & _). simpl in Hlen. lia.
    + left. split; [reflexivity|]. intros k (Hlen & Hstop & Hsw).
      simpl in Hlen. assert (k = 0)%nat by lia. subst k. simpl in Hsw.
      apply andb_false_iff in E as [E | E]; [|congruence].
      apply Nat.leb_gt in E. lia.
  - cbn [rfind_scan].
    set (last' := if (i + List.length sub <=? stop)%nat
                     && startswith sub (c :: s)
                  then Some i else last).
    destruct (IH (S i) last') as [[Hr Hnone] | [k (Hr & Hocc & Hlater)]].
    + destruct ((i + List.length sub <=? stop)%nat
                && startswith sub (c :: s)) eqn:E; subst last'.
      * right. exists 0%nat. apply andb_true_iff in E as [E1 E2].
        apply Nat.leb_le in E1. rewrite Nat.add_0_r.
        split; [exact Hr|]. split.
        -- simpl. repeat split; [lia | lia | exact E2].
        -- intros [|j] Hj (Hlen & Hstop & Hsw); [lia|].
           apply (Hnone j). simpl in Hlen, Hsw.
           repeat split; [lia | lia | exact Hsw].
      * left. split; [exact Hr|].
        intros [|k] (Hlen & Hstop & Hsw).
        -- simpl in Hsw. apply andb_false_iff in E as [E | E]; [|congruence].
           apply Nat.leb_gt in E. lia.
        -- apply (Hnone k). simpl in Hlen, Hsw.
           repeat split; [lia | lia | exact Hsw].
    + right. exists (S k). destruct Hocc as (Hlen & Hstop & Hsw).
      split; [rewrite Hr; f_equal; lia|]. split.
      * simpl. repeat split; [lia | lia | exact Hsw].
      * intros [|j] Hj (Hlen' & Hstop' & Hsw'); [lia|].
        apply (Hlater j); [lia|]. simpl in Hlen', Hsw'.
        repeat split; [lia | lia | exact Hsw'].
Qed.

(** [rfind] gives the last occurrence that ends at or before [stop]. *)
Lemma rfind_spec (sub s : pystr) (stop : nat) :
  match rfind sub s stop with
  | Some k =>
      occurs_within sub s stop k
      /\ forall j, (k < j)%nat -> ~ occurs_within sub s stop j
  | None => forall k, ~ occurs_within sub s stop k
  end.
Proof.
  unfold rfind, occurs_within.
  destruct (rfind_scan_cases sub stop s 0 None)
    as [[-> Hnone] | [k (-> & Hocc & Hlater)]]; cbn [Nat.add] in *.
  - exact Hnone.
  - split; assumption.
Qed.

(** The texts of a response longer than [MAX_LEN]: the text up to a cut
    point followed by the ellipsis marker, then the notice. *)
Lemma send_response_long (response_text entity : pystr) :
  (MAX_LEN < List.length response_text)%nat ->
  exists cut,
    send_response response_text entity
    = [firstn cut response_text ++ ELLIPSIS; shortened_notice entity]
    /\ (List.length (firstn cut response_text ++ ELLIPSIS) <= MAX_LEN)%nat
    /\ ((occurs_within SEPARATOR response_text (MAX_LEN - 20) cut
         /\ forall j, (cut < j)%nat ->
                      ~ occurs_within SEPARATOR response_text (MAX_LEN - 20) j)
        \/ (cut = (MAX_LEN - 20)%nat
            /\ forall k,
                ~ occurs_within SEPARATOR response_text (MAX_LEN - 20) k)).
Proof.
  intros Hlong. unfold send_response.
  apply Nat.ltb_lt in Hlong. rewrite Hlong.
  pose proof (rfind_spec SEPARATOR response_text (MAX_LEN - 20)) as Hspec.
  assert (Hell : List.length ELLIPSIS = 13%nat) by reflexivity.
  destruct (rfind SEPARATOR response_text (MAX_LEN - 20)) as [k|].
  - exists k. split; [reflexivity|]. split; [|now left].
    destruct Hspec as ((_ & Hstop & _) & _).
    rewrite length_app, Hell.
    pose proof (firstn_le_length k response_text).
    unfold MAX_LEN in *. lia.
  - exists (MAX_LEN - 20)%nat. split; [reflexivity|]. split; [|now right].
    rewrite length_app, Hell.
    pose proof (firstn_le_length (MAX_LEN - 20) response_text).
    unfold MAX_LEN in *. lia.
Qed.

End Truncation.

(** ** Worked instances *)

Lemma apply_filter_vacuous_witness :
  (forall field condition,
      In (field, condition)
         [(lit "mrp", VStr (lit "< 50")); (lit "batch_number", VInt 3)] ->
      dict_get field shirt = None)
  /\ @apply_filter ascii_runtime shirt
       [(lit "mrp", VStr (lit "< 50")); (lit "batch_number", VInt 3)]
       (lit "products") = Ok true.
Proof.
  assert (H : forall field condition,
             In (field, condition)
                [(lit "mrp", VStr (lit "< 50")); (lit "batch_number", VInt 3)] ->
             dict_get field shirt = None).
  { intros field condition [H | [H | []]]; injection H as <- _; reflexivity. }
  split; [exact H|].
  exact (@apply_filter_vacuous ascii_runtime shirt _ (lit "products") H).
Defined.

Lemma apply_filter_ignores_undeclared_witness :
  field_type_of (lit "products") (lit "colour") = None
  /\ @apply_filter ascii_runtime shirt
       ([(lit "product_price", VStr (lit "< 50"))]
        ++ (lit "colour", VStr (lit "exact 'blue'")) :: [])
       (lit "products")
     = @apply_filter ascii_runtime shirt
         ([(lit "product_price", VStr (lit "< 50"))] ++ []) (lit "products").
Proof.
  split; [reflexivity|].
  destruct (@apply_filter_ignores_undeclared ascii_runtime shirt
              (lit "products")) as [H _].
  apply H. reflexivity.
Defined.

Lemma string_conditions_match_witness :
  dict_get (lit "product_name") shirt = Some (VStr (lit "XABCX"))
  /\ field_type_of (lit "products") (lit "product_name") = Some (lit "string")
  /\ @apply_filter ascii_runtime shirt
       [(lit "product_name", contains_condition (lit "abc"))] (lit "products")
     = Ok true
  /\ @apply_filter ascii_runtime shirt
       [(lit "product_name", exact_condition (lit "abc"))] (lit "products")
     = Ok false.
Proof.
  assert (Hv : dict_get (lit "product_name") shirt = Some (VStr (lit "XABCX")))
    by reflexivity.
  assert (Ht : field_type_of (lit "products") (lit "product_name")
               = Some (lit "string")) by reflexivity.
  split; [exact Hv|]. split; [exact Ht|].
  destruct (@string_conditions_match ascii_runtime shirt _ _ _ (lit "abc") []
              Hv Ht) as (Hc & _ & He & _).
  rewrite Hc, He. split; reflexivity.
Defined.

(** The examples of the specification for string conditions. *)
Lemma string_examples :
  @apply_filter ascii_runtime [(lit "product_name", VStr (lit "XABCX"))]
    [(lit "product_name", VStr (lit "contains 'abc'"))] (lit "products")
  = Ok true
  /\ @apply_filter ascii_runtime [(lit "product_name", VStr (lit "xyz"))]
       [(lit "product_name", VStr (lit "contains 'abc'"))] (lit "products")
     = Ok false
  /\ @apply_filter ascii_runtime [(lit "product_name", VStr (lit "ABc"))]
       [(lit "product_name", VStr (lit "exact 'abc'"))] (lit "products")
     = Ok true.
Proof. repeat split; reflexivity. Qed.



Lemma extract_filters_recovers_witness :
  exists entity_fields,
    assoc (lit "products") FIELD_TYPES = Some entity_fields
    /\ @extract_filters ascii_runtime (answering (lit "no filters, sorry"))
         (lit "products") (lit "cheap products") = Ok [].
Proof.
  eexists. split; [reflexivity|].
  pose proof (@extract_filters_recovers ascii_runtime
                (answering (lit "no filters, sorry")) (lit "products") _
                (lit "cheap products") eq_refl) as H.
  cbv zeta in H. destruct H as (_ & _ & H).
  destruct (H _ eq_refl) as (_ & Htext).
  destruct (Htext _ eq_refl) as (_ & Hjson & _).
  exact (Hjson JSONDecodeError eq_refl).
Defined.

Lemma found_count_is_output_items_witness :
  [VDict shirt; VInt 7; VDict (price_record 20)] <> []
  /\ (exists count output_items,
         @format_response_with ascii_runtime failing_layout
           [VDict shirt; VInt 7; VDict (price_record 20)] (lit "products") []
         = icon_search ++ lit " *Found " ++ count ++ lit " "
           ++ lit "Products" ++ lit "*:" ++ NL ++ NL
           ++ join SEPARATOR output_items
         /\ decimal_value count = Some (List.length output_items)
         /\ List.length output_items = 2%nat
         /\ (List.length output_items < 3)%nat)
  /\ @format_response_with ascii_runtime failing_layout
       [VDict shirt; VInt 7; VDict (price_record 20)] (lit "products") []
     = icon_search ++ lit " *Found 2 Products*:" ++ NL ++ NL
       ++ icon_warning ++ lit " Error formatting item: ID Unknown ID"
       ++ NL ++ NL ++ lit "---" ++ NL ++ NL
       ++ icon_warning ++ lit " Error formatting item: ID Unknown ID"
  /\ @format_response ascii_runtime
       [VDict (price_record 20); VStr (lit "x"); VNone] (lit "widgets") []
     = icon_search ++ lit " *Found 1 Widgets*:" ++ NL ++ NL
       ++ lit "```json" ++ NL ++ lit "{}" ++ NL ++ lit "```".
Proof.
  assert (Hne : [VDict shirt; VInt 7; VDict (price_record 20)] <> [])
    by discriminate.
  split; [exact Hne|]. split; [|split; reflexivity].
  destruct (@found_count_is_output_items ascii_runtime failing_layout
              (lit "products") [] _ Hne)
    as (count & output_items & Hresponse & Hcount & _ & Hlen & Hless).
  exists count, output_items.
  split; [exact Hresponse|]. split; [exact Hcount|].
  split; [exact Hlen|]. apply Hless. exists (VInt 7).
  split; [right; left; reflexivity | reflexivity].
Defined.

Lemma number_condition_ordered_witness :
  existsb (N.eqb 32) (lit "<=") = false
  /\ float_from_string (builtins := ascii_runtime) (lit "50.0")
     = Some (S754_finite false 7036874417766400 (-47))
  /\ py_float (builtins := ascii_runtime) (VInt 50)
     = Ok (S754_finite false 7036874417766400 (-47))
  /\ ordered (S754_finite false 7036874417766400 (-47))
       (S754_finite false 7036874417766400 (-47))
  /\ number_condition (builtins := ascii_runtime) (VStr (lit "<= 50.0"))
       (VInt 50) = Ok true.
Proof.
  assert (Hord : ordered (S754_finite false 7036874417766400 (-47))
                   (S754_finite false 7036874417766400 (-47)))
    by (exists Eq; reflexivity).
  split; [reflexivity|]. split; [reflexivity|]. split; [reflexivity|].
  split; [exact Hord|].
  exact (@number_condition_ordered ascii_runtime (lit "<=") (lit "50.0")
           (VInt 50) _ _ eq_refl eq_refl eq_refl Hord).
Defined.

Lemma number_condition_not_numeric_witness :
  existsb (N.eqb 32) (lit "<") = false
  /\ float_from_string (builtins := ascii_runtime) (lit "fifty") = None
  /\ number_condition (builtins := ascii_runtime) (VStr (lit "< fifty"))
       (VInt 49) = Ok false
  /\ py_float (builtins := ascii_runtime) VNone = Raise TypeError
  /\ number_condition (builtins := ascii_runtime) (VStr (lit "< 50")) VNone
     = Ok false.
Proof.
  destruct (@number_condition_not_numeric ascii_runtime (lit "<")
              (lit "fifty") (VInt 49) eq_refl) as [Hleft _].
  destruct (@number_condition_not_numeric ascii_runtime (lit "<")
              (lit "50") VNone eq_refl) as [_ Hright].
  split; [reflexivity|]. split; [reflexivity|].
  split; [exact (Hleft eq_refl)|]. split; [reflexivity|].
  apply (Hright TypeError); [reflexivity | discriminate].
Defined.

Lemma number_condition_no_space_witness :
  dict_get (lit "product_price") (price_record 49) = Some (VInt 49)
  /\ field_type_of (lit "products") (lit "product_price")
     = Some (lit "number")
  /\ existsb (N.eqb 32) (lit "<50") = false
  /\ split_space_1 (lit "<50") = [lit "<50"]
  /\ apply_filter (builtins := ascii_runtime) (price_record 49)
       [(lit "product_price", VStr (lit "<50"));
        (lit "product_name", VStr (lit "contains 'item'"))]
       (lit "products") = Ok false.
Proof.
  split; [reflexivity|]. split; [reflexivity|]. split; [reflexivity|].
  destruct (@number_condition_no_space ascii_runtime (price_record 49)
              (lit "product_price") (lit "products") (VInt 49) (lit "<50")
              [(lit "product_name", VStr (lit "contains 'item'"))]
              eq_refl eq_refl eq_refl) as (Hsplit & _ & Hreject).
  split; [exact Hsplit | exact Hreject].
Defined.

(** ** Laws of the predicate evaluator *)

Section EvaluatorLaws.

Context {builtins : PyBuiltins}.

Lemma apply_filter_cons item fc rest entity :
  apply_filter item (fc :: rest) entity
  = match apply_filter item [fc] entity with
    | Ok true => apply_filter item rest entity
    | r => r
    end.
Proof.
  destruct fc as [field condition]. simpl.
  destruct (dict_get field item) as [v|]; [|reflexivity].
  destruct (opt_str_eqb (field_type_of entity field) (lit "string")).
  - now destruct (string_condition condition v) as [[|]|].
  - destruct (opt_str_eqb (field_type_of entity field) (lit "number"));
      [|reflexivity].
    now destruct (number_condition condition v) as [[|]|].
Qed.

Lemma assoc_in {A : Type} (k : pystr) (l : list (pystr * A)) (a : A) :
  assoc k l = Some a -> In (k, a) l.
Proof.
  induction l as [|[k' a'] l IH]; simpl; [discriminate|].
  destruct (str_eqb k k') eqn:E.
  - apply str_eqb_eq in E. intros H. injection H as ->. left. now subst.
  - intros H. right. now apply IH.
Qed.

Lemma string_condition_str_returns c v :
  exists b, string_condition (VStr c) v = Ok b.
Proof.
  unfold string_condition.
  destruct (startswith (lit "contains '") c && endswith (lit "'") c).
  - destruct (negb _); now eexists.
  - destruct (startswith (lit "exact '") c && endswith (lit "'") c);
      [destruct (negb _)|]; now eexists.
Qed.

Lemma py_float_raises v e :
  py_float v = Raise e ->
  is_value_or_type_error e = true
  \/ (e = OverflowError
      /\ exists z, v = VInt z /\ float_from_int z = Raise OverflowError).
Proof.
  destruct v as [| b | z | f | t | l | d]; simpl; try discriminate;
    try (intros H; injection H as <-; now left).
  - intros H. right.
    assert (e = OverflowError) as ->.
    { unfold float_from_int in H.
      destruct (float64_normalize z 0 false); try discriminate;
        now injection H as <-. }
    split; [reflexivity|]. now exists z.
  - destruct (float_from_string t); [discriminate|].
    intros H. injection H as <-. now left.
Qed.

Lemma number_condition_str_raises c v e :
  number_condition (VStr c) v = Raise e ->
  e = OverflowError
  /\ exists z, v = VInt z /\ float_from_int z = Raise OverflowError.
Proof.
  unfold number_condition, number_condition_body.
  destruct (split_space_1 c) as [|op [|value_str [|x parts]]];
    try discriminate.
  destruct (py_float (VStr value_str)) as [value | e1] eqn:E1.
  - destruct (py_float v) as [item_value | e2] eqn:E2.
    + destruct (str_eqb op (lit "<"));
        [destruct (SFleb value item_value); discriminate|].
      destruct (str_eqb op (lit ">"));
        [destruct (SFleb item_value value); discriminate|].
      destruct (str_eqb op (lit "="));
        [destruct (negb (SFeqb item_value value)); discriminate|].
      destruct (str_eqb op (lit "<="));
        [destruct (SFltb value item_value); discriminate|].
      destruct (str_eqb op (lit ">="));
        [destruct (SFltb item_value value); discriminate|].
      discriminate.
    + destruct (py_float_raises _ E2) as [Hc | [-> Hz]].
      * rewrite Hc. discriminate.
      * simpl. intros H. injection H as <-. now split.
  - destruct (py_float_raises _ E1) as [Hc | [-> (z & Hz & _)]].
    + rewrite Hc. discriminate.
    + discriminate.
Qed.

(** X4. A record satisfies a FilterSet exactly when it satisfies every
    condition of it taken on its own: the loop of [apply_filter] is a
    conjunction. *)
Theorem apply_filter_true_iff_each item filters entity :
  apply_filter item filters entity = Ok true
  <-> forall fc, In fc filters -> apply_filter item [fc] entity = Ok true.
Proof.
  induction filters as [|fc rest IH].
  - split; [intros _ fc []|reflexivity].
  - rewrite apply_filter_cons. split.
    + intros H fc' [<- | Hin].
      * destruct (apply_filter item [fc] entity) as [[|]|];
          [reflexivity | discriminate | discriminate].
      * destruct (apply_filter item [fc] entity) as [[|]|];
          try discriminate.
        now apply IH.
    + intros H. rewrite (H fc (or_introl eq_refl)).
      apply IH. intros fc' Hin. apply H. now right.
Qed.

Lemma forallb_permutation {A : Type} (f : A -> bool) (l l' : list A) :
  Permutation l l' -> forallb f l = forallb f l'.
Proof.
  induction 1; simpl; try congruence.
  now destruct (f x), (f y).
Qed.

Lemma apply_filter_forallb item filters entity :
  (forall fc, In fc filters -> exists b, apply_filter item [fc] entity = Ok b) ->
  apply_filter item filters entity = Ok (forallb (passes item entity) filters).
Proof.
  induction filters as [|fc rest IH]; intros H; [reflexivity|].
  rewrite apply_filter_cons. cbn [forallb]. unfold passes at 1.
  destruct (H fc (or_introl eq_refl)) as [[|] ->]; [|reflexivity].
  apply IH. intros fc' Hin. apply H. now right.
Qed.

(** X5. Order of the conditions: a reordering of the FilterSet never changes
    whether the record is accepted, and when no condition raises on its own
    it changes nothing at all. *)
Theorem apply_filter_order_independent item filters filters' entity :
  Permutation filters filters' ->
  (apply_filter item filters entity = Ok true
   <-> apply_filter item filters' entity = Ok true)
  /\ ((forall fc, In fc filters ->
                  exists b, apply_filter item [fc] entity = Ok b) ->
      apply_filter item filters entity = apply_filter item filters' entity).
Proof.
  intros Hperm. split.
  - induction Hperm as [| x l l' Hperm IH | x y l | l l' l'' _ IH1 _ IH2].
    + tauto.
    + rewrite (apply_filter_cons item x l), (apply_filter_cons item x l').
      destruct (apply_filter item [x] entity) as [[|]|]; tauto.
    + rewrite (apply_filter_cons item y (x :: l)),
        (apply_filter_cons item x (y :: l)),
        (apply_filter_cons item x l), (apply_filter_cons item y l).
      destruct (apply_filter item [x] entity) as [[|]|],
               (apply_filter item [y] entity) as [[|]|];
        split; intros H; try discriminate H; exact H || reflexivity.
    + tauto.
  - intros Hsafe.
    rewrite (apply_filter_forallb item filters entity Hsafe).
    rewrite (apply_filter_forallb item filters' entity).
    + f_equal. now apply forallb_permutation.
    + intros fc Hin. apply Hsafe.
      apply Permutation_in with (l := filters'); [|exact Hin].
      now apply Permutation_sym.
Qed.

(** X6. The only exceptions that leave [apply_filter] on a dict record are
    [AttributeError], and then some condition is not a string, and
    [OverflowError], and then some value of the record is an integer beyond
    the range of a double. *)
Theorem apply_filter_raises_only item filters entity e :
  apply_filter item filters entity = Raise e ->
  (e = AttributeError
   /\ exists field condition,
       In (field, condition) filters /\ forall c, condition <> VStr c)
  \/ (e = OverflowError
      /\ exists field z,
          In (field, VInt z) item /\ float_from_int z = Raise OverflowError).
Proof.
  induction filters as [|[field condition] rest IH]; [discriminate|].
  assert (Hrest : apply_filter item rest entity = Raise e ->
                  (e = AttributeError
                   /\ exists field0 condition0,
                       In (field0, condition0) ((field, condition) :: rest)
                       /\ forall c, condition0 <> VStr c)
                  \/ (e = OverflowError
                      /\ exists field0 z,
                          In (field0, VInt z) item
                          /\ float_from_int z = Raise OverflowError)).
  { intros H. destruct (IH H) as [(-> & f & c & Hin & Hc) | Hover].
    - left. split; [reflexivity|]. exists f, c. split; [now right | exact Hc].
    - now right. }
  simpl. destruct (dict_get field item) as [v|] eqn:Hv; [|exact Hrest].
  destruct (opt_str_eqb (field_type_of entity field) (lit "string")).
  - destruct condition as [| b | z | f | c | l | d];
      try (intros H; injection H as <-; left; split; [reflexivity|];
           eexists _, _; split; [now left | discriminate]).
    destruct (string_condition_str_returns c v) as [[|] ->];
      [exact Hrest | discriminate].
  - destruct (opt_str_eqb (field_type_of entity field) (lit "number"));
      [|exact Hrest].
    destruct condition as [| b | z | f | c | l | d];
      try (intros H; injection H as <-; left; split; [reflexivity|];
           eexists _, _; split; [now left | discriminate]).
    destruct (number_condition (VStr c) v) as [[|] | e'] eqn:Hn;
      [exact Hrest | discriminate |].
    intros H. injection H as <-.
    destruct (number_condition_str_raises _ _ Hn) as (-> & z & -> & Hz).
    right. split; [reflexivity|]. exists field, z.
    split; [now apply assoc_in | exact Hz].
Qed.

(** X7. [select_records] keeps, in their order, exactly the records that
    [apply_filter] accepts; it raises only what [apply_filter] raises on one
    of the records, and returns whenever no record raises. *)
Theorem select_records_is_filter all_data filters entity :
  (forall kept,
      select_records all_data filters entity = Ok kept ->
      kept = filter (matches filters entity) all_data)
  /\ (forall e,
         select_records all_data filters entity = Raise e ->
         exists item,
           In item all_data /\ apply_filter item filters entity = Raise e)
  /\ ((forall item, In item all_data ->
                    exists b, apply_filter item filters entity = Ok b) ->
      select_records all_data filters entity
      = Ok (filter (matches filters entity) all_data)).
Proof.
  induction all_data as [|item rest (IHok & IHraise & IHsafe)].
  - repeat split.
    + intros kept H. now injection H as <-.
    + discriminate.
  - cbn [select_records filter].
    replace (matches filters entity item)
      with (match apply_filter item filters entity with
            | Ok true => true
            | _ => false
            end) by reflexivity.
    destruct (apply_filter item filters entity) as [keep | e'] eqn:Hitem.
    + destruct (select_records rest filters entity) as [kept' | e'] eqn:Hrest.
      * rewrite (IHok kept' eq_refl). repeat split.
        -- intros kept H. injection H as <-. now destruct keep.
        -- discriminate.
        -- intros _. now destruct keep.
      * destruct (IHraise e' eq_refl) as (bad & Hin & Hbad).
        repeat split.
        -- discriminate.
        -- intros e H. injection H as <-. exists bad. split; [now right|auto].
        -- intros Hsafe. destruct (Hsafe bad (or_intror Hin)) as [b Hb].
           congruence.
    + repeat split.
      * discriminate.
      * intros e H. injection H as <-. exists item. split; [now left|auto].
      * intros Hsafe. destruct (Hsafe item (or_introl eq_refl)) as [b Hb].
        congruence.
Qed.

End EvaluatorLaws.

(** ** The schema registry *)

Section Registry.

Context {builtins : PyBuiltins}.

Lemma assoc_some_iff {A : Type} (k : pystr) (l : list (pystr * A)) :
  (exists a, assoc k l = Some a) <-> In k (map fst l).
Proof using Type.
  induction l as [|[k' a'] l IH]; simpl.
  - split; [intros [a Ha]; discriminate | intros []].
  - destruct (str_eqb k k') eqn:E.
    + apply str_eqb_eq in E. split; [intros _; now left | intros _; now eexists].
    + rewrite IH. split; [now right|].
      intros [Hk | Hin]; [|exact Hin].
      subst k'. now rewrite str_eqb_refl in E.
Qed.

Lemma has_data_source_iff (entity : pystr) :
  in_data_sources entity = true <-> In entity known_entities.
Proof using Type.
  unfold in_data_sources, known_entities.
  rewrite <- assoc_some_iff.
  destruct (assoc entity DATA_SOURCES) as [url|].
  - split; [intros _; now exists url | reflexivity].
  - split; [discriminate | intros [url H]; discriminate].
Qed.

Lemma field_tables_well_typed :
  forallb (fun et => well_typed_table (snd et)) FIELD_TYPES = true.
Proof. vm_compute. reflexivity. Qed.

(** X8. The three tables keyed by entity name have the same six keys: an
    entity has a data source exactly when it has a field table, and exactly
    when it has a layout of its own; and every declared field is typed
    ['string'] or ['number'], so no declared field falls through both
    branches of [apply_filter]. *)
Theorem registry_tables_agree (entity : pystr) :
  (in_data_sources entity = true
   <-> exists entity_fields, assoc entity FIELD_TYPES = Some entity_fields)
  /\ (in_data_sources entity = true
      <-> exists layout, assoc entity formatters = Some layout)
  /\ (forall field field_type,
         field_type_of entity field = Some field_type ->
         field_type = lit "string" \/ field_type = lit "number").
Proof.
  split; [|split].
  - rewrite has_data_source_iff, assoc_some_iff.
    unfold known_entities. simpl. tauto.
  - rewrite has_data_source_iff, assoc_some_iff.
    unfold known_entities. simpl. tauto.
  - intros field field_type. unfold field_type_of.
    destruct (assoc entity FIELD_TYPES) as [fields|] eqn:E; [|discriminate].
    intros H. apply assoc_in in E, H.
    pose proof field_tables_well_typed as Hall.
    rewrite forallb_forall in Hall. specialize (Hall _ E). cbn [snd] in Hall.
    unfold well_typed_table in Hall. rewrite forallb_forall in Hall.
    specialize (Hall _ H). cbn [snd] in Hall.
    apply orb_true_iff in Hall as [Ht | Ht]; apply str_eqb_eq in Ht; auto.
Qed.

Lemma known_entities_cases (entity : pystr) :
  In entity known_entities ->
  entity = lit "sellers" \/ entity = lit "warehouses"
  \/ entity = lit "products" \/ entity = lit "logistics"
  \/ entity = lit "inspectors" \/ entity = lit "factories".
Proof using Type.
  unfold known_entities. cbn [map fst DATA_SOURCES In].
  intros [<- | [<- | [<- | [<- | [<- | [<- | []]]]]]]; tauto.
Qed.

Lemma contains_prefix (sub rest : pystr) : contains sub (sub ++ rest) = true.
Proof using Type. apply contains_spec. now exists [], rest. Qed.

Lemma contains_skip (sub before s : pystr) :
  contains sub s = true -> contains sub (before ++ s) = true.
Proof using Type.
  rewrite !contains_spec. intros (pre & post & ->).
  exists (before ++ pre), post. now rewrite <- app_assoc.
Qed.

(** Finds the part of a concatenation that is the text looked for. *)
Local Ltac find_shown :=
  first [ apply contains_prefix | apply contains_skip; find_shown ].

(** The declared fields of a known entity, one case each. *)
Local Ltac declared_field Ht :=
  unfold field_type_of in Ht;
  match type of Ht with
  | context [assoc ?e FIELD_TYPES] =>
      let fields := eval hnf in (assoc e FIELD_TYPES) in
      change (assoc e FIELD_TYPES) with fields in Ht
  end;
  cbv iota in Ht; apply assoc_in in Ht;
  unfold str_field, num_field in Ht; cbn [In] in Ht;
  repeat (destruct Ht as [Ht | Ht]; [injection Ht as <- <-|]);
  [..|destruct Ht].

(** X9. What can be filtered on is shown.  For each of the six entities the
    layout of the entity renders a dict record, without raising, as a block
    that is neither the JSON fallback nor the error placeholder, and the
    block shows the value of every field that [FIELD_TYPES] declares for the
    entity and the record has. *)
Theorem known_entity_layout_shows_fields (entity : pystr) (d : pydict) :
  In entity known_entities ->
  exists block : pystr,
    select_formatter entity d = Ok block
    /\ format_item (select_formatter entity) entity [] (VDict d) = [block]
    /\ startswith (lit "```json") block = false
    /\ startswith icon_warning block = false
    /\ forall field field_type v,
        field_type_of entity field = Some field_type ->
        dict_get field d = Some v ->
        contains (py_str v) block = true.
Proof.
  intros Hin. apply known_entities_cases in Hin.
  destruct Hin as [-> | [-> | [-> | [-> | [-> | ->]]]]];
    (eexists; split; [reflexivity|]; split; [reflexivity|];
     split; [reflexivity|]; split; [reflexivity|];
     intros field field_type v Ht Hv; declared_field Ht;
     cbv beta delta [format_factories format_products format_sellers
                       format_warehouses format_logistics format_inspectors
                       fld fld_alt dict_get_default];
     rewrite Hv; cbv beta iota; find_shown).
Qed.

End Registry.

(** ** What the inference-backed steps hand on *)

Section InferenceLaws.

Context {builtins : PyBuiltins}.
Variable generate_content : pystr -> generation.

Lemma known_entity_not_none (entity : pystr) :
  In entity known_entities ->
  str_eqb entity (lit "none") = false
  /\ (1 <= List.length entity <= 10)%nat.
Proof using Type.
  unfold known_entities. simpl.
  intros [<- | [<- | [<- | [<- | [<- | [<- | []]]]]]];
    (split; [reflexivity | simpl; lia]).
Qed.

(** X10. [detect_entity] returns an entity exactly when the model answered
    with a text whose stripped, lowercased form is one of the six entity
    names, and then it returns that form. *)
Theorem detect_entity_some_iff (query entity : pystr) :
  detect_entity generate_content query = Ok (Some entity)
  <-> exists r t,
      generate_content (detect_entity_prompt query) = Generated r
      /\ text r = Ok t
      /\ lower (strip t) = entity
      /\ In entity known_entities.
Proof using Type.
  unfold detect_entity, hasattr_text. split.
  - destruct (generate_content (detect_entity_prompt query)) as [r | e];
      [|discriminate].
    destruct (text r) as [t | e] eqn:Ht.
    + destruct (str_eqb (lower (strip t)) (lit "none")
                || negb (in_data_sources (lower (strip t)))) eqn:E;
        [discriminate|].
      intros H. injection H as <-.
      apply orb_false_iff in E as [_ E]. apply negb_false_iff in E.
      exists r, t. repeat split; try assumption.
      now apply has_data_source_iff.
    + destruct e; discriminate.
  - intros (r & t & -> & -> & Htok & Hin). rewrite Htok.
    destruct (@known_entity_not_none _ Hin) as [-> _].
    apply has_data_source_iff in Hin. now rewrite Hin.
Qed.

(** X11. For a known entity, [extract_filters] returns a non-empty FilterSet
    exactly when the stripped answer of the model is not empty and decodes
    to that JSON object: the object is handed on as it is, no key is checked
    against the schema and no value against the condition grammar. *)
Theorem extract_filters_nonempty_iff entity entity_fields query filters :
  assoc entity FIELD_TYPES = Some entity_fields ->
  filters <> [] ->
  (extract_filters generate_content entity query = Ok filters
   <-> exists r t,
       generate_content
         (extract_filters_prompt entity
            (join (lit ", ") (map fst entity_fields)) query) = Generated r
       /\ text r = Ok t
       /\ strip t <> []
       /\ json_loads (strip t) = Ok (VDict filters)).
Proof using Type.
  intros Hfields Hne. unfold extract_filters, extract_filters_body.
  rewrite Hfields. split.
  - destruct (generate_content _) as [r | e] eqn:Hg; [|congruence].
    destruct (text r) as [t | e] eqn:Ht; [|congruence].
    destruct (strip t) as [|c s] eqn:Hs; [congruence|].
    destruct (json_loads (c :: s)) as [v | e] eqn:Hj.
    + destruct v; try congruence.
      intros H. injection H as ->. exists r, t.
      split; [reflexivity|]. split; [exact Ht|]. rewrite Hs.
      split; [discriminate | exact Hj].
    + destruct e; congruence.
  - intros (r & t & -> & -> & Hs & Hj).
    destruct (strip t); [congruence|]. now rewrite Hj.
Qed.

End InferenceLaws.

(** ** Items that are not dicts, and the size of the replies *)

Section ItemsAndSizes.

Context {builtins : PyBuiltins}.



(** X12. An item that is a number, a boolean or null cannot be tested against
    a non-empty FilterSet: [field in item] raises [TypeError] before any
    condition is looked at, and a fetched list that holds such an item
    anywhere makes the selection raise. *)
Theorem scalar_item_raises item filters entity :
  is_scalar item = true ->
  filters <> [] ->
  apply_filter_item item filters entity = Raise TypeError
  /\ forall before after,
      exists e,
        select_items (before ++ item :: after) filters entity = Raise e.
Proof.
  intros Hscalar Hne.
  assert (Hitem : apply_filter_item item filters entity = Raise TypeError).
  { destruct filters as [|[field condition] rest]; [congruence|].
    destruct item; try discriminate; reflexivity. }
  split; [exact Hitem|].
  intros before after. induction before as [|x before [e IH]].
  - exists TypeError. cbn [app select_items]. now rewrite Hitem.
  - cbn [app select_items]. rewrite IH.
    destruct (apply_filter_item x filters entity) as [keep | e'];
      eexists; reflexivity.
Qed.

Lemma send_response_shape response_text entity :
  ((List.length response_text <= MAX_LEN)%nat
   /\ send_response response_text entity = [response_text])
  \/ ((MAX_LEN < List.length response_text)%nat
      /\ exists truncated,
          (List.length truncated <= MAX_LEN)%nat
          /\ send_response response_text entity
             = [truncated; shortened_notice entity]).
Proof.
  unfold send_response.
  destruct (MAX_LEN <? List.length response_text)%nat eqn:E.
  - right. apply Nat.ltb_lt in E. split; [exact E|].
    eexists. split; [|reflexivity].
    assert (Hell : List.length ELLIPSIS = 13%nat) by reflexivity.
    rewrite length_app, Hell.
    pose proof (rfind_spec SEPARATOR response_text (MAX_LEN - 20)) as Hspec.
    destruct (rfind SEPARATOR response_text (MAX_LEN - 20)) as [k|].
    + destruct Hspec as ((_ & Hstop & _) & _).
      pose proof (firstn_le_length k response_text).
      unfold MAX_LEN in *. lia.
    + pose proof (firstn_le_length (MAX_LEN - 20) response_text).
      unfold MAX_LEN in *. lia.
  - left. apply Nat.ltb_ge in E. split; [exact E | reflexivity].
Qed.

Lemma shortened_notice_length entity :
  List.length (shortened_notice entity) = (60 + List.length entity)%nat.
Proof.
  unfold shortened_notice. rewrite !length_app. simpl. lia.
Qed.

(** X13. For each of the six entities, every text that [send_response] hands
    to [reply_text] has at most [MAX_LEN] characters, whatever the length of
    the formatted response; a response within the limit is sent unchanged
    and alone, a longer one as exactly two messages. *)
Theorem send_response_within_limit response_text entity :
  In entity known_entities ->
  Forall (fun message => (List.length message <= MAX_LEN)%nat)
    (send_response response_text entity)
  /\ ((List.length response_text <= MAX_LEN)%nat ->
      send_response response_text entity = [response_text])
  /\ ((MAX_LEN < List.length response_text)%nat ->
      List.length (send_response response_text entity) = 2%nat).
Proof.
  intros Hin.
  destruct (@known_entity_not_none _ Hin) as [_ Hlen].
  pose proof (shortened_notice_length entity) as Hnotice.
  destruct (send_response_shape response_text entity)
    as [[Hshort ->] | [Hlong (truncated & Htr & ->)]].
  - split; [apply Forall_cons; [exact Hshort | apply Forall_nil]|].
    split; [reflexivity | lia].
  - split.
    + apply Forall_cons; [exact Htr|].
      apply Forall_cons; [unfold MAX_LEN; lia | apply Forall_nil].
    + split; [lia | reflexivity].
Qed.

End ItemsAndSizes.

(** ** The request orchestrator *)

Section OrchestratorLaws.

Context {builtins : PyBuiltins}.
Variable generate_content : pystr -> generation.
Variable http_get : pystr -> http_reply.
Variable reply_text : pystr -> bool -> result unit.

Lemma error_reply_message e :
  error_reply reply_text e = reply reply_text (error_message e) false.
Proof. now destruct e. Qed.

Lemma handle_message_text (q : pystr) :
  q <> [] ->
  handle_message generate_content http_get reply_text (Some q)
  = (ChatAction
     :: fst (io_catch
               (handle_message_body generate_content http_get reply_text q)
               (error_reply reply_text)),
     snd (io_catch
            (handle_message_body generate_content http_get reply_text q)
            (error_reply reply_text))).
Proof.
  intros Hq. destruct q as [|c q]; [congruence|].
  unfold handle_message, io_bind.
  now destruct
        (io_catch
           (handle_message_body generate_content http_get reply_text
              (c :: q))
           (error_reply reply_text)).
Qed.

Lemma detected_entity_not_empty (q : pystr) entity :
  detect_entity generate_content q = Ok (Some entity) ->
  In entity known_entities /\ entity <> [].
Proof.
  intros H.
  pose proof (@detect_entity_known _ generate_content q entity H) as Hin.
  split; [exact Hin|].
  destruct (@known_entity_not_none _ Hin) as [_ Hlen].
  intros ->. simpl in Hlen. lia.
Qed.

Lemma body_detect_raises (q : pystr) e :
  detect_entity generate_content q = Raise e ->
  handle_message_body generate_content http_get reply_text q
  = ([Generate (detect_entity_prompt q)], Raise e).
Proof. intros H. unfold handle_message_body, io_bind. now rewrite H. Qed.

Lemma body_no_entity (q : pystr) :
  detect_entity generate_content q = Ok None ->
  handle_message_body generate_content http_get reply_text q
  = ([Generate (detect_entity_prompt q); Generate (conversation_prompt q);
      Reply (generate_conversational_response generate_content q) true],
     reply_text (generate_conversational_response generate_content q) true).
Proof.
  intros H. unfold handle_message_body, io_bind, reply. rewrite H.
  now destruct (reply_text (generate_conversational_response generate_content q) true).
Qed.

Lemma body_fetch_none (q : pystr) entity :
  detect_entity generate_content q = Ok (Some entity) ->
  fetch_data http_get entity = None ->
  handle_message_body generate_content http_get reply_text q
  = (Generate (detect_entity_prompt q)
     :: fetch_data_calls entity ++ [Reply (fetch_error_message entity) true],
     reply_text (fetch_error_message entity) true).
Proof.
  intros Hd Hf. destruct (detected_entity_not_empty _ Hd) as [_ Hne].
  unfold handle_message_body, io_bind, reply. rewrite Hd.
  destruct entity as [|c entity]; [congruence|]. cbv beta iota. rewrite Hf.
  now destruct (reply_text (fetch_error_message (c :: entity)) true).
Qed.

Lemma body_data (q : pystr) entity all_data :
  detect_entity generate_content q = Ok (Some entity) ->
  fetch_data http_get entity = Some all_data ->
  handle_message_body generate_content http_get reply_text q
  = io_bind
      (Generate (detect_entity_prompt q)
       :: fetch_data_calls entity ++ extract_filters_calls entity q,
       extract_filters generate_content entity q)
      (fun filters =>
         io_bind ([], match filters with
                      | _ :: _ => select_items all_data filters entity
                      | [] => Ok all_data
                      end)
           (fun filtered_data =>
              reply_each reply_text
                (send_response (format_response filtered_data entity filters)
                   entity))).
Proof.
  intros Hd Hf. destruct (detected_entity_not_empty _ Hd) as [_ Hne].
  unfold handle_message_body. rewrite Hd.
  destruct entity as [|c entity]; [congruence|].
  unfold io_bind at 1. cbv beta iota. rewrite Hf.
  unfold io_bind at 1 2. cbn [app].
  destruct (extract_filters generate_content (c :: entity) q) as [filters | e].
  - match goal with
    | |- context [io_bind ([], ?x) ?f] =>
        destruct (io_bind ([], x) f) as [trace r] eqn:E
    end.
    unfold io_bind at 1. cbv beta iota. rewrite E.
    rewrite <- app_comm_cons, <- app_assoc. reflexivity.
  - reflexivity.
Qed.

Lemma known_entity_fetch_call entity :
  In entity known_entities ->
  exists url, url <> [] /\ assoc entity DATA_SOURCES = Some url
              /\ fetch_data_calls entity = [HttpGet url].
Proof using Type.
  unfold known_entities. simpl.
  intros [<- | [<- | [<- | [<- | [<- | [<- | []]]]]]];
    eexists; (split; [|split; reflexivity]); discriminate.
Qed.

(** X14. When the inference call of the resolution step fails, the user gets
    exactly one reply, chosen by the class of the exception, sent as plain
    text; no data source is contacted and the model is not called again. *)
Theorem handle_message_detection_fails (q : pystr) e :
  q <> [] ->
  detect_entity generate_content q = Raise e ->
  handle_message generate_content http_get reply_text (Some q)
  = ([ChatAction; Generate (detect_entity_prompt q);
      Reply (error_message e) false],
     reply_text (error_message e) false).
Proof.
  intros Hq Hd. rewrite (handle_message_text Hq), (body_detect_raises _ Hd).
  unfold io_catch. rewrite error_reply_message. reflexivity.
Qed.

(** X15. When no entity is resolved, the model is asked once more, for a
    conversational answer, which is sent as the only data-free reply; no
    data source is contacted.  If the front-end refuses that reply, the
    generic apology for the refusal follows as plain text. *)
Theorem handle_message_without_entity (q : pystr) :
  q <> [] ->
  detect_entity generate_content q = Ok None ->
  handle_message generate_content http_get reply_text (Some q)
  = match
      reply_text (generate_conversational_response generate_content q) true
    with
    | Ok _ =>
        ([ChatAction; Generate (detect_entity_prompt q);
          Generate (conversation_prompt q);
          Reply (generate_conversational_response generate_content q) true],
         Ok tt)
    | Raise e =>
        ([ChatAction; Generate (detect_entity_prompt q);
          Generate (conversation_prompt q);
          Reply (generate_conversational_response generate_content q) true;
          Reply (error_message e) false],
         reply_text (error_message e) false)
    end.
Proof.
  intros Hq Hd. rewrite (handle_message_text Hq), (body_no_entity _ Hd).
  unfold io_catch.
  destruct
    (reply_text (generate_conversational_response generate_content q) true)
    as [[]|e]; [reflexivity|].
  rewrite error_reply_message. reflexivity.
Qed.

(** X16. When the entity is resolved and [fetch_data] returns [None], the
    entity's data source was contacted once, the model is not asked for
    filters, and the reply is the fetch-error text that names the entity. *)
Theorem handle_message_fetch_fails (q : pystr) entity :
  q <> [] ->
  detect_entity generate_content q = Ok (Some entity) ->
  fetch_data http_get entity = None ->
  exists url,
    assoc entity DATA_SOURCES = Some url
    /\ handle_message generate_content http_get reply_text (Some q)
       = match reply_text (fetch_error_message entity) true with
         | Ok _ =>
             ([ChatAction; Generate (detect_entity_prompt q); HttpGet url;
               Reply (fetch_error_message entity) true], Ok tt)
         | Raise e =>
             ([ChatAction; Generate (detect_entity_prompt q); HttpGet url;
               Reply (fetch_error_message entity) true;
               Reply (error_message e) false],
              reply_text (error_message e) false)
         end.
Proof.
  intros Hq Hd Hf. destruct (detected_entity_not_empty _ Hd) as [Hin _].
  destruct (known_entity_fetch_call Hin) as (url & _ & Hurl & Hcall).
  exists url. split; [exact Hurl|].
  rewrite (handle_message_text Hq), (body_fetch_none _ Hd Hf), Hcall.
  unfold io_catch. cbn [app].
  destruct (reply_text (fetch_error_message entity) true) as [[]|e];
    [reflexivity|].
  rewrite error_reply_message. reflexivity.
Qed.


Lemma fetch_calls_no_reply entity :
  filter is_reply (fetch_data_calls entity) = [].
Proof using Type.
  unfold fetch_data_calls.
  now destruct (assoc entity DATA_SOURCES) as [[|c url]|].
Qed.

Lemma extract_calls_no_reply entity q :
  filter is_reply (extract_filters_calls entity q) = [].
Proof using Type.
  unfold extract_filters_calls. now destruct (assoc entity FIELD_TYPES).
Qed.

Lemma error_message_length e : (List.length (error_message e) <= 130)%nat.
Proof using Type. destruct e; vm_compute; lia. Qed.

Lemma fetch_error_message_length entity :
  List.length (fetch_error_message entity) = (138 + List.length entity)%nat.
Proof using Type.
  unfold fetch_error_message. rewrite !length_app. simpl. lia.
Qed.


(** One outcome of the [try] with its handlers: the calls made before the
    first reply, then the replies attempted. *)
Local Ltac outcome calls sent :=
  exists calls, sent; eexists;
  split;
  [ apply f_equal2; [|reflexivity];
    repeat (progress cbn [app map sent_event fst snd]
            || rewrite <- app_assoc || rewrite app_nil_r);
    reflexivity
  | split;
    [ cbn [filter is_reply];
      rewrite ?filter_app, ?fetch_calls_no_reply, ?extract_calls_no_reply;
      reflexivity
    | split;
      [ cbn [List.length]; lia
      | split;
        [ intros Hall;
          first [ match goal with
                  | E : reply_text _ _ = Raise _ |- _ =>
                      rewrite Hall in E; discriminate E
                  end
                | split;
                  [cbn [List.length]; auto | first [reflexivity | apply Hall]] ]
        | intros ent Hent;
          first [ discriminate Hent | idtac ];
          repeat (apply Forall_cons;
                  [ cbn [fst];
                    first [ assumption
                          | match goal with
                            | |- context [error_message ?e] =>
                                pose proof (error_message_length e)
                            end;
                            unfold MAX_LEN in *; lia
                          | unfold MAX_LEN in *; lia ]
                  | ]);
          apply Forall_nil ] ] ] ].

(** Every run of the [try] with its handlers: calls first, then one to
    three replies. *)
Lemma caught_body_structure (q : pystr) :
  exists calls sent r,
    io_catch (handle_message_body generate_content http_get reply_text q)
      (error_reply reply_text)
    = (calls ++ map sent_event sent, r)
    /\ filter is_reply calls = []
    /\ (1 <= List.length sent <= 3)%nat
    /\ ((forall message markdown, reply_text message markdown = Ok tt) ->
        (List.length sent = 1 \/ List.length sent = 2)%nat /\ r = Ok tt)
    /\ (forall entity,
           detect_entity generate_content q = Ok (Some entity) ->
           Forall (fun m => (List.length (fst m) <= MAX_LEN)%nat) sent).
Proof.
  destruct (detect_entity generate_content q) as [[entity|]|e] eqn:Hd.
  - destruct (detected_entity_not_empty _ Hd) as [Hin _].
    destruct (@known_entity_not_none _ Hin) as [_ Hlen].
    pose proof (fetch_error_message_length entity) as Hfe.
    destruct (fetch_data http_get entity) as [all_data|] eqn:Hf.
    + rewrite (body_data _ Hd Hf).
      destruct (extract_filters generate_content entity q)
        as [filters | e] eqn:Hx.
      * unfold io_bind at 1. cbv beta iota. unfold io_bind at 1.
        destruct (match filters with
                  | [] => Ok all_data
                  | _ :: _ => select_items all_data filters entity
                  end) as [filtered_data | e].
        -- cbv beta iota.
           pose proof (shortened_notice_length entity) as Hnotice.
           destruct (send_response_shape
                       (format_response filtered_data entity filters) entity)
             as [[Hb1 Hs] | [_ (truncated & Hb1 & Hs)]];
             rewrite Hs in *; clear Hs;
             cbn [reply_each]; unfold io_bind, io_ret, reply.
           ++ destruct (reply_text _ true) as [[]|e] eqn:E1;
                unfold io_catch; rewrite ?error_reply_message; unfold reply.
              ** outcome (Generate (detect_entity_prompt q)
                          :: fetch_data_calls entity
                             ++ extract_filters_calls entity q)
                   [(format_response filtered_data entity filters, true)].
              ** outcome (Generate (detect_entity_prompt q)
                          :: fetch_data_calls entity
                             ++ extract_filters_calls entity q)
                   [(format_response filtered_data entity filters, true);
                    (error_message e, false)].
           ++ destruct (reply_text truncated true) as [[]|e] eqn:E1.
              ** destruct (reply_text (shortened_notice entity) true)
                   as [[]|e] eqn:E2;
                   unfold io_catch; rewrite ?error_reply_message;
                   unfold reply.
                 --- outcome (Generate (detect_entity_prompt q)
                              :: fetch_data_calls entity
                                 ++ extract_filters_calls entity q)
                       [(truncated, true); (shortened_notice entity, true)].
                 --- outcome (Generate (detect_entity_prompt q)
                              :: fetch_data_calls entity
                                 ++ extract_filters_calls entity q)
                       [(truncated, true); (shortened_notice entity, true);
                        (error_message e, false)].
              ** unfold io_catch; rewrite ?error_reply_message; unfold reply.
                 outcome (Generate (detect_entity_prompt q)
                          :: fetch_data_calls entity
                             ++ extract_filters_calls entity q)
                   [(truncated, true); (error_message e, false)].
        -- cbv beta iota. unfold io_catch. rewrite error_reply_message.
           unfold reply.
           outcome (Generate (detect_entity_prompt q)
                    :: fetch_data_calls entity
                       ++ extract_filters_calls entity q)
             [(error_message e, false)].
      * unfold io_bind, io_catch. rewrite error_reply_message. unfold reply.
        outcome (Generate (detect_entity_prompt q)
                 :: fetch_data_calls entity
                    ++ extract_filters_calls entity q)
          [(error_message e, false)].
    + rewrite (body_fetch_none _ Hd Hf). unfold io_catch.
      destruct (reply_text (fetch_error_message entity) true)
        as [[]|e] eqn:E1;
        rewrite ?error_reply_message; unfold reply.
      * outcome (Generate (detect_entity_prompt q) :: fetch_data_calls entity)
          [(fetch_error_message entity, true)].
      * outcome (Generate (detect_entity_prompt q) :: fetch_data_calls entity)
          [(fetch_error_message entity, true); (error_message e, false)].
  - rewrite (body_no_entity _ Hd). unfold io_catch.
    destruct (reply_text
                (generate_conversational_response generate_content q) true)
      as [[]|e] eqn:E1;
      rewrite ?error_reply_message; unfold reply.
    + outcome [Generate (detect_entity_prompt q);
               Generate (conversation_prompt q)]
        [(generate_conversational_response generate_content q, true)].
    + outcome [Generate (detect_entity_prompt q);
               Generate (conversation_prompt q)]
        [(generate_conversational_response generate_content q, true);
         (error_message e, false)].
  - rewrite (body_detect_raises _ Hd). unfold io_catch.
    rewrite error_reply_message. unfold reply.
    outcome [Generate (detect_entity_prompt q)] [(error_message e, false)].
Qed.

(** Every run on a text message. *)
Lemma handle_message_structure (q : pystr) :
  q <> [] ->
  exists calls sent,
    fst (handle_message generate_content http_get reply_text (Some q))
    = calls ++ map sent_event sent
    /\ filter is_reply calls = []
    /\ (1 <= List.length sent <= 3)%nat
    /\ ((forall message markdown, reply_text message markdown = Ok tt) ->
        (List.length sent = 1 \/ List.length sent = 2)%nat
        /\ snd (handle_message generate_content http_get reply_text (Some q))
           = Ok tt)
    /\ (forall entity,
           detect_entity generate_content q = Ok (Some entity) ->
           Forall (fun m => (List.length (fst m) <= MAX_LEN)%nat) sent).
Proof.
  intros Hq. rewrite (handle_message_text Hq).
  destruct (caught_body_structure q)
    as (calls & sent & r & -> & Hcalls & Hn & Hall & Hbound).
  exists (ChatAction :: calls), sent. cbn [fst snd].
  split; [reflexivity|]. split; [exact Hcalls|]. split; [exact Hn|].
  split; [exact Hall | exact Hbound].
Qed.

Lemma sent_events_are_replies sent :
  filter is_reply (map sent_event sent) = map sent_event sent.
Proof using Type. induction sent as [|m sent IH]; simpl; congruence. Qed.

(** X18. A message without text causes no call at all.  A text message always
    gets at least one reply and at most three are attempted; when the
    front-end accepts every reply, exactly one or two are sent and nothing is
    raised to the caller. *)
Theorem handle_message_reply_count :
  handle_message generate_content http_get reply_text None = ([], Ok tt)
  /\ handle_message generate_content http_get reply_text (Some [])
     = ([], Ok tt)
  /\ forall q : pystr,
      q <> [] ->
      let outcome :=
        handle_message generate_content http_get reply_text (Some q) in
      let n := List.length (filter is_reply (fst outcome)) in
      (1 <= n <= 3)%nat
      /\ ((forall message markdown, reply_text message markdown = Ok tt) ->
          (n = 1 \/ n = 2)%nat /\ snd outcome = Ok tt).
Proof.
  split; [reflexivity|]. split; [reflexivity|].
  intros q Hq. cbv zeta.
  destruct (handle_message_structure Hq)
    as (calls & sent & -> & Hcalls & Hn & Hall & _).
  rewrite filter_app, Hcalls, sent_events_are_replies. cbn [app].
  rewrite length_map. split; [exact Hn | exact Hall].
Qed.

(** X19. Once an entity is resolved, every reply that is attempted for the
    message has at most [MAX_LEN] characters: the formatted or truncated
    response, the notice, the fetch-error text and the apologies. *)
Theorem handle_message_data_replies_bounded (q : pystr) entity :
  detect_entity generate_content q = Ok (Some entity) ->
  Forall reply_within_limit
    (fst (handle_message generate_content http_get reply_text (Some q))).
Proof.
  intros Hd.
  destruct (list_eq_dec N.eq_dec q []) as [-> | Hq]; [apply Forall_nil|].
  destruct (handle_message_structure Hq)
    as (calls & sent & Htrace & Hcalls & _ & _ & Hbound).
  rewrite Htrace.
  specialize (Hbound entity Hd). apply Forall_app. split.
  - clear - Hcalls. induction calls as [|ev calls IH]; [apply Forall_nil|].
    cbn [filter] in Hcalls. destruct ev; cbn [is_reply] in Hcalls;
      try discriminate; (apply Forall_cons; [exact I | now apply IH]).
  - clear - Hbound. induction Hbound as [|m sent Hm _ IH];
      [apply Forall_nil|].
    cbn [map]. apply Forall_cons; [exact Hm | exact IH].
Qed.


(** C3. A response longer than [MAX_LEN] is cut at the start of the last
    separator that lies wholly within its first [MAX_LEN - 20] characters, so
    one that starts at or before index [MAX_LEN - 27], and at [MAX_LEN - 20]
    itself when there is none; the ellipsis marker is appended and the
    primary message has at most [MAX_LEN] characters.  [handle_message]
    sends the primary message and then the "shortened" notice; the notice is
    sent exactly when sending the primary message did not raise, and what a
    reply raises is answered by the apology of its class. *)
Theorem long_response_is_truncated (response_text entity : pystr) :
  (MAX_LEN < List.length response_text)%nat ->
  exists cut,
    ((occurs_within SEPARATOR response_text (MAX_LEN - 20) cut
      /\ (cut <= MAX_LEN - 27)%nat
      /\ forall j, (cut < j)%nat ->
                   ~ occurs_within SEPARATOR response_text (MAX_LEN - 20) j)
     \/ (cut = (MAX_LEN - 20)%nat
         /\ forall k,
             ~ occurs_within SEPARATOR response_text (MAX_LEN - 20) k))
    /\ (List.length (firstn cut response_text ++ ELLIPSIS) <= MAX_LEN)%nat
    /\ forall (q : pystr) all_data filters filtered_data,
        q <> [] ->
        detect_entity generate_content q = Ok (Some entity) ->
        fetch_data http_get entity = Some all_data ->
        extract_filters generate_content entity q = Ok filters ->
        match filters with
        | _ :: _ => select_items all_data filters entity
        | [] => Ok all_data
        end = Ok filtered_data ->
        format_response filtered_data entity filters = response_text ->
        handle_message generate_content http_get reply_text (Some q)
        = let primary := firstn cut response_text ++ ELLIPSIS in
          let notice := shortened_notice entity in
          let calls :=
            ChatAction :: Generate (detect_entity_prompt q)
            :: fetch_data_calls entity ++ extract_filters_calls entity q in
          match reply_text primary true with
          | Ok _ =>
              match reply_text notice true with
              | Ok _ =>
                  (calls ++ [Reply primary true; Reply notice true], Ok tt)
              | Raise e =>
                  (calls ++ [Reply primary true; Reply notice true;
                             Reply (error_message e) false],
                   reply_text (error_message e) false)
              end
          | Raise e =>
              (calls ++ [Reply primary true; Reply (error_message e) false],
               reply_text (error_message e) false)
          end.
Proof.
  intros Hlong.
  destruct (@send_response_long response_text entity Hlong)
    as (cut & Hsend & Hlen & Hchar).
  exists cut. split; [|split; [exact Hlen|]].
  - destruct Hchar as [[Hocc Hlast] | Hnone]; [left | now right].
    split; [exact Hocc|]. split; [|exact Hlast].
    destruct Hocc as (_ & Hstop & _).
    change (List.length SEPARATOR) with 7%nat in Hstop. lia.
  - intros q all_data filters filtered_data Hq Hd Hf Hx Hsel Hfmt.
    rewrite (handle_message_text Hq).
    assert (Hbody :
             handle_message_body generate_content http_get reply_text q
             = (Generate (detect_entity_prompt q)
                :: fetch_data_calls entity ++ extract_filters_calls entity q
                   ++ fst (reply_each reply_text
                             (send_response response_text entity)),
                snd (reply_each reply_text
                       (send_response response_text entity)))).
    { rewrite (body_data _ Hd Hf), Hx.
      unfold io_bind at 1. cbv beta iota. unfold io_bind at 1.
      rewrite Hsel. cbv beta iota. rewrite Hfmt.
      destruct (reply_each reply_text (send_response response_text entity))
        as [trace r].
      cbn [fst snd app]. now rewrite <- app_assoc. }
    rewrite Hbody, Hsend. clear Hbody.
    cbn [reply_each]. unfold io_bind, reply, io_ret, io_catch. cbv zeta.
    destruct (reply_text (firstn cut response_text ++ ELLIPSIS) true)
      as [[] | e].
    + destruct (reply_text (shortened_notice entity) true) as [[] | e].
      * cbn [fst snd app]. rewrite <- app_assoc. reflexivity.
      * cbn [fst snd app]. rewrite error_reply_message. unfold reply.
        cbn [fst snd app]. rewrite <- !app_assoc. reflexivity.
    + cbn [fst snd app]. rewrite error_reply_message. unfold reply.
      cbn [fst snd app]. rewrite <- !app_assoc. reflexivity.
Qed.

(** X21. [fetch_data] returns records only for an entity that has a data
    source, and only when the request returned, its status passed and its
    body decoded to a JSON array, handed on as it is, or to a JSON object,
    wrapped as a one-element list; in every other case it returns [None]. *)
Theorem fetch_data_some_iff (entity : pystr) (data : list value) :
  fetch_data http_get entity = Some data
  <-> exists url body,
      url <> []
      /\ assoc entity DATA_SOURCES = Some url
      /\ http_get url = HttpResponse true (Ok body)
      /\ (body = VList data \/ exists d, body = VDict d /\ data = [VDict d]).
Proof using Type.
  unfold fetch_data. split.
  - destruct (assoc entity DATA_SOURCES) as [[|c url]|]; try discriminate.
    destruct (http_get (c :: url)) as [|[|] [body|e]] eqn:Hget;
      try discriminate.
    destruct body as [| b | z | f | t | l | d]; try discriminate;
      intros H; injection H as <-; exists (c :: url); eexists;
      (split; [discriminate|]); (split; [reflexivity|]);
      (split; [exact Hget|]).
    + now left.
    + right. now exists d.
  - intros (url & body & Hne & -> & Hget & Hbody).
    destruct url as [|c url]; [congruence|]. rewrite Hget.
    destruct Hbody as [-> | (d & -> & ->)]; reflexivity.
Qed.

End OrchestratorLaws.

(** ** Worked instances of the laws *)

Lemma apply_filter_order_independent_witness :
  Permutation two_conditions two_conditions_swapped
  /\ @apply_filter ascii_runtime shirt two_conditions (lit "products")
     = @apply_filter ascii_runtime shirt two_conditions_swapped
         (lit "products").
Proof.
  assert (Hperm : Permutation two_conditions two_conditions_swapped)
    by apply perm_swap.
  split; [exact Hperm|].
  destruct (@apply_filter_order_independent ascii_runtime shirt _ _
              (lit "products") Hperm) as [_ H].
  apply H. intros fc [<- | [<- | []]]; eexists; reflexivity.
Defined.

Lemma apply_filter_raises_only_witness :
  @apply_filter ascii_runtime (price_record 10) (price_filter (VInt 50))
    (lit "products") = Raise AttributeError
  /\ ((AttributeError = AttributeError
       /\ exists field condition,
           In (field, condition) (price_filter (VInt 50))
           /\ forall c, condition <> VStr c)
      \/ (AttributeError = OverflowError
          /\ exists field z,
              In (field, VInt z) (price_record 10)
              /\ float_from_int z = Raise OverflowError)).
Proof.
  split; [reflexivity|].
  exact (@apply_filter_raises_only ascii_runtime (price_record 10)
           (price_filter (VInt 50)) (lit "products") AttributeError eq_refl).
Defined.

Lemma select_records_is_filter_witness :
  (forall item,
      In item ten_products ->
      exists b,
        @apply_filter ascii_runtime item (price_filter (VStr (lit "< 50")))
          (lit "products") = Ok b)
  /\ @select_records ascii_runtime ten_products
       (price_filter (VStr (lit "< 50"))) (lit "products")
     = Ok (filter (@matches ascii_runtime (price_filter (VStr (lit "< 50")))
                     (lit "products")) ten_products).
Proof.
  assert (H : forall item,
             In item ten_products ->
             exists b,
               @apply_filter ascii_runtime item
                 (price_filter (VStr (lit "< 50"))) (lit "products") = Ok b).
  { intros item Hin. unfold ten_products in Hin. cbn [map In] in Hin.
    repeat (destruct Hin as [<- | Hin]; [eexists; reflexivity|]).
    destruct Hin. }
  split; [exact H|].
  destruct (@select_records_is_filter ascii_runtime ten_products
              (price_filter (VStr (lit "< 50"))) (lit "products"))
    as (_ & _ & Hsafe).
  exact (Hsafe H).
Defined.

Lemma registry_tables_agree_witness :
  field_type_of (lit "products") (lit "product_price") = Some (lit "number")
  /\ (lit "number" = lit "string" \/ lit "number" = lit "number").
Proof.
  split; [reflexivity|].
  destruct (@registry_tables_agree ascii_runtime (lit "products"))
    as (_ & _ & H).
  exact (H (lit "product_price") (lit "number") eq_refl).
Defined.

Lemma known_entity_layout_shows_fields_witness :
  In (lit "products") known_entities
  /\ field_type_of (lit "products") (lit "product_name")
     = Some (lit "string")
  /\ dict_get (lit "product_name") shirt = Some (VStr (lit "XABCX"))
  /\ (exists block,
         @select_formatter ascii_runtime (lit "products") shirt = Ok block
         /\ startswith (lit "```json") block = false
         /\ contains (lit "XABCX") block = true)
  /\ @select_formatter ascii_runtime (lit "inspectors")
       [(lit "name", VStr (lit "Ada")); (lit "inspector_id", VInt 7)]
     = Ok (icon_inspector ++ lit " *Ada* (ID: 7)" ++ NL
           ++ lit "   " ++ icon_pin ++ lit " Location: Lat N/A, Lon N/A" ++ NL
           ++ lit "   " ++ icon_balance ++ lit " Balance: N/A" ++ NL
           ++ lit "   " ++ icon_price ++ lit " Fee/Product: N/A" ++ NL).
Proof.
  assert (Hin : In (lit "products") known_entities)
    by (right; right; left; reflexivity).
  split; [exact Hin|]. split; [reflexivity|]. split; [reflexivity|].
  split; [|reflexivity].
  destruct (@known_entity_layout_shows_fields ascii_runtime _ shirt Hin)
    as (block & Hblock & _ & Hjson & _ & Hshown).
  exists block. split; [exact Hblock|]. split; [exact Hjson|].
  exact (Hshown (lit "product_name") (lit "string") (VStr (lit "XABCX"))
           eq_refl eq_refl).
Defined.

Lemma extract_filters_nonempty_iff_witness :
  exists entity_fields,
    assoc (lit "products") FIELD_TYPES = Some entity_fields
    /\ price_filter (VInt 50) <> []
    /\ @extract_filters (decoding_runtime (VDict (price_filter (VInt 50))))
         (answering (lit "{}")) (lit "products") (lit "cheap products")
       = Ok (price_filter (VInt 50)).
Proof.
  assert (Hne : price_filter (VInt 50) <> []) by discriminate.
  eexists. split; [reflexivity|]. split; [exact Hne|].
  apply (@extract_filters_nonempty_iff
           (decoding_runtime (VDict (price_filter (VInt 50))))
           (answering (lit "{}")) (lit "products") _ (lit "cheap products")
           (price_filter (VInt 50)) eq_refl Hne).
  exists {| text := Ok (lit "{}") |}, (lit "{}").
  split; [reflexivity|]. split; [reflexivity|].
  split; [discriminate | reflexivity].
Defined.

Lemma scalar_item_raises_witness :
  is_scalar (VInt 3) = true
  /\ price_filter (VStr (lit "< 50")) <> []
  /\ @apply_filter_item ascii_runtime (VInt 3)
       (price_filter (VStr (lit "< 50"))) (lit "products") = Raise TypeError.
Proof.
  assert (Hne : price_filter (VStr (lit "< 50")) <> []) by discriminate.
  split; [reflexivity|]. split; [exact Hne|].
  destruct (@scalar_item_raises ascii_runtime (VInt 3) _ (lit "products")
              eq_refl Hne) as [H _].
  exact H.
Defined.

Lemma send_response_within_limit_witness :
  In (lit "products") known_entities
  /\ Forall (fun message => (List.length message <= MAX_LEN)%nat)
       (send_response long_text (lit "products")).
Proof.
  assert (Hin : In (lit "products") known_entities)
    by (right; right; left; reflexivity).
  split; [exact Hin|].
  destruct (@send_response_within_limit long_text _ Hin) as [H _].
  exact H.
Defined.

Lemma non_string_condition_raises_witness :
  dict_get (lit "product_price") (price_record 10) = Some (VInt 10)
  /\ (field_type_of (lit "products") (lit "product_price")
      = Some (lit "string")
      \/ field_type_of (lit "products") (lit "product_price")
         = Some (lit "number"))
  /\ (forall c, VInt 50 <> VStr c)
  /\ @apply_filter ascii_runtime (price_record 10)
       ((lit "product_price", VInt 50) :: two_conditions) (lit "products")
     = Raise AttributeError.
Proof.
  assert (Hc : forall c, VInt 50 <> VStr c) by discriminate.
  split; [reflexivity|]. split; [right; reflexivity|]. split; [exact Hc|].
  exact (@non_string_condition_raises ascii_runtime (price_record 10)
           (lit "product_price") (lit "products") (VInt 10) (VInt 50)
           two_conditions eq_refl (or_intror eq_refl) Hc).
Defined.

Lemma handle_message_detection_fails_witness :
  lit "hi" <> []
  /\ @detect_entity ascii_runtime unavailable (lit "hi")
     = Raise GoogleAPIError
  /\ @handle_message ascii_runtime unavailable failing_source accepting
       (Some (lit "hi"))
     = ([ChatAction; Generate (detect_entity_prompt (lit "hi"));
         Reply AI_SERVICE_MESSAGE false], Ok tt).
Proof.
  assert (Hq : lit "hi" <> []) by discriminate.
  split; [exact Hq|]. split; [reflexivity|].
  exact (@handle_message_detection_fails ascii_runtime unavailable
           failing_source accepting (lit "hi") GoogleAPIError Hq eq_refl).
Defined.

Lemma handle_message_without_entity_witness :
  lit "hi" <> []
  /\ @detect_entity ascii_runtime (answering (lit "none")) (lit "hi")
     = Ok None
  /\ @handle_message ascii_runtime (answering (lit "none")) failing_source
       accepting (Some (lit "hi"))
     = ([ChatAction; Generate (detect_entity_prompt (lit "hi"));
         Generate (conversation_prompt (lit "hi")); Reply (lit "none") true],
        Ok tt).
Proof.
  assert (Hq : lit "hi" <> []) by discriminate.
  split; [exact Hq|]. split; [reflexivity|].
  exact (@handle_message_without_entity ascii_runtime
           (answering (lit "none")) failing_source accepting (lit "hi")
           Hq eq_refl).
Defined.

Lemma handle_message_fetch_fails_witness :
  lit "all products" <> []
  /\ @detect_entity ascii_runtime (answering (lit "Products"))
       (lit "all products") = Ok (Some (lit "products"))
  /\ fetch_data failing_source (lit "products") = None
  /\ exists url,
      assoc (lit "products") DATA_SOURCES = Some url
      /\ @handle_message ascii_runtime (answering (lit "Products"))
           failing_source accepting (Some (lit "all products"))
         = ([ChatAction; Generate (detect_entity_prompt (lit "all products"));
             HttpGet url; Reply (fetch_error_message (lit "products")) true],
            Ok tt).
Proof.
  assert (Hq : lit "all products" <> []) by discriminate.
  split; [exact Hq|]. split; [reflexivity|]. split; [reflexivity|].
  exact (@handle_message_fetch_fails ascii_runtime
           (answering (lit "Products")) failing_source accepting
           (lit "all products") (lit "products") Hq eq_refl eq_refl).
Defined.


Lemma handle_message_reply_count_witness :
  (forall message markdown, accepting message markdown = Ok tt)
  /\ lit "hi" <> []
  /\ (1 <= List.length
             (filter is_reply
                (fst (@handle_message ascii_runtime unavailable
                        failing_source accepting (Some (lit "hi")))))
      <= 3)%nat
  /\ snd (@handle_message ascii_runtime unavailable failing_source accepting
            (Some (lit "hi"))) = Ok tt.
Proof.
  assert (Hall : forall message markdown, accepting message markdown = Ok tt)
    by reflexivity.
  assert (Hq : lit "hi" <> []) by discriminate.
  split; [exact Hall|]. split; [exact Hq|].
  destruct (@handle_message_reply_count ascii_runtime unavailable
              failing_source accepting) as (_ & _ & H).
  destruct (H (lit "hi") Hq) as [Hn Hok].
  split; [exact Hn | exact (proj2 (Hok Hall))].
Defined.

Lemma handle_message_data_replies_bounded_witness :
  @detect_entity ascii_runtime (answering (lit "Products"))
    (lit "all products") = Ok (Some (lit "products"))
  /\ Forall reply_within_limit
       (fst (@handle_message ascii_runtime (answering (lit "Products"))
               failing_source accepting (Some (lit "all products")))).
Proof.
  split; [reflexivity|].
  exact (@handle_message_data_replies_bounded ascii_runtime
           (answering (lit "Products")) failing_source accepting
           (lit "all products") (lit "products") eq_refl).
Defined.


Lemma long_response_is_truncated_witness :
  (MAX_LEN < List.length forty_products_response)%nat
  /\ exists cut,
      cut = 3991%nat
      /\ occurs_within SEPARATOR forty_products_response (MAX_LEN - 20) cut
      /\ (forall j, (cut < j)%nat ->
                    ~ occurs_within SEPARATOR forty_products_response
                        (MAX_LEN - 20) j)
      /\ (List.length (firstn cut forty_products_response ++ ELLIPSIS)
          <= MAX_LEN)%nat
      /\ @handle_message ascii_runtime (answering (lit "products"))
           (serving (VList (map VDict forty_products))) accepting
           (Some (lit "all products"))
         = (ChatAction
            :: Generate (detect_entity_prompt (lit "all products"))
            :: fetch_data_calls (lit "products")
               ++ extract_filters_calls (lit "products")
                    (lit "all products")
               ++ [Reply (firstn cut forty_products_response ++ ELLIPSIS)
                     true;
                   Reply (shortened_notice (lit "products")) true],
            Ok tt).
Proof.
  assert (Hlong : (MAX_LEN < List.length forty_products_response)%nat).
  { apply Nat.ltb_lt. vm_compute. reflexivity. }
  assert (Hq : lit "all products" <> []) by discriminate.
  assert (Hhere : occurs_within SEPARATOR forty_products_response
                    (MAX_LEN - 20) 3991).
  { unfold occurs_within. split; [|split].
    - apply Nat.leb_le. vm_compute. reflexivity.
    - apply Nat.leb_le. vm_compute. reflexivity.
    - vm_compute. reflexivity. }
  split; [exact Hlong|].
  destruct (@long_response_is_truncated ascii_runtime
              (answering (lit "products"))
              (serving (VList (map VDict forty_products))) accepting
              forty_products_response (lit "products") Hlong)
    as (cut & [(Hocc & _ & Hlast) | [_ Hnone]] & Hlen & Hhandle).
  - exists cut.
    assert (Hcut : cut = 3991%nat).
    { destruct (Nat.lt_trichotomy cut 3991) as [Hlt | [Heq | Hgt]].
      - now destruct (Hlast _ Hlt).
      - exact Heq.
      - exfalso. destruct Hocc as (_ & Hstop & Hsep).
        change (List.length SEPARATOR) with 7%nat in Hstop.
        unfold MAX_LEN in Hstop.
        assert (Hscan : forallb
                          (fun j => negb (startswith SEPARATOR
                                            (skipn j forty_products_response)))
                          (seq 3992 78) = true)
          by (vm_compute; reflexivity).
        rewrite forallb_forall in Hscan.
        assert (Hrange : In cut (seq 3992 78)) by (apply in_seq; lia).
        apply Hscan in Hrange. rewrite Hsep in Hrange.
        discriminate Hrange. }
    split; [exact Hcut|]. split; [exact Hocc|]. split; [exact Hlast|].
    split; [exact Hlen|].
    exact (Hhandle (lit "all products") (map VDict forty_products) []
             (map VDict forty_products) Hq eq_refl eq_refl eq_refl eq_refl
             eq_refl).
  - destruct (Hnone _ Hhere).
Defined.

(** Two responses on which the truncation is not as the specification words
    it.  In the first, the list of two products, a separator starts at index
    4072, before the limit minus the margin, and ends after it: it is not
    found, and the cut at 4076 leaves the first four characters of the
    separator in the primary message that [handle_message] sends.  On the
    second the front-end refuses the primary message: the notice is not
    sent, the apology is. *)
Lemma truncation_claim_counterexample :
  (MAX_LEN < List.length straddling_text)%nat
  /\ (4072 <= MAX_LEN - 20)%nat
  /\ startswith SEPARATOR (skipn 4072 straddling_text) = true
  /\ send_response straddling_text (lit "products")
     = [firstn (MAX_LEN - 20) straddling_text ++ ELLIPSIS;
        shortened_notice (lit "products")]
  /\ firstn (MAX_LEN - 20) straddling_text
     = firstn 4072 straddling_text ++ NL ++ NL ++ lit "--"
  /\ send_response straddling_text (lit "products")
     <> [firstn 4072 straddling_text ++ ELLIPSIS;
         shortened_notice (lit "products")]
  /\ filter is_reply
       (fst (@handle_message ascii_runtime (answering (lit "products"))
               (serving (VList (map VDict straddling_products))) accepting
               (Some (lit "all products"))))
     = [Reply (firstn 4072 straddling_text ++ NL ++ NL ++ lit "--"
               ++ ELLIPSIS) true;
        Reply (shortened_notice (lit "products")) true]
  /\ (MAX_LEN < List.length forty_products_response)%nat
  /\ filter is_reply
       (fst (@handle_message ascii_runtime (answering (lit "products"))
               (serving (VList (map VDict forty_products))) refusing
               (Some (lit "all products"))))
     = [Reply (firstn 3991 forty_products_response ++ ELLIPSIS) true;
        Reply UNEXPECTED_MESSAGE false].
Proof.
  split; [apply Nat.ltb_lt; vm_compute; reflexivity|].
  split; [apply Nat.leb_le; vm_compute; reflexivity|].
  split; [vm_compute; reflexivity|].
  split; [vm_compute; reflexivity|].
  split; [vm_compute; reflexivity|].
  split.
  - intros H. apply (f_equal (fun l => List.length (hd [] l))) in H.
    vm_compute in H. discriminate H.
  - split; [vm_compute; reflexivity|].
    split; [apply Nat.ltb_lt; vm_compute; reflexivity|].
    vm_compute. reflexivity.
Qed.
